(** * Campus lost-and-found: matching, negotiation and the session state machine

    A shallow embedding of [services.py], [agents.py], [models.py], [config.py]
    and of the negotiation endpoints of [main.py].

    Conventions of the embedding.
    - A table is a finite map from its primary key to its row ([items],
      [negotiation_sessions]) or the list of its rows in insertion order
      ([failed_matches], [item_images], [return_schedules], [notifications]);
      for the latter the autoincrement [id] column, which no code path reads,
      is the position in the list.
    - A nullable column has an [option] type; SQL comparisons against NULL are
      three-valued and a row passes a filter only when the predicate is true.
    - A Python float is an IEEE 754 binary64 number and is represented by the
      rational it denotes; an operation on floats is the exact operation
      followed by rounding to the nearest binary64 number, ties to even.
      [round(x, 4)] returns the float nearest to a multiple of 1/10000, and
      that float, like the literal [0.3] it is compared with, is represented
      by the decimal itself: the nearest float is strictly increasing on the
      multiples of 1/10000, so comparisons are the same.
    - Timestamps are wall-clock reads: [completed_at] only records whether the
      column has been written.  Notification and response texts are left out.
    - The text-similarity backend (jieba/scikit-learn or the keyword fallback)
      and the language model behind the agents are parameters.
    - A string holds the UTF-8 encoding of a Python [str]; where the code
      looks at characters ([strip]) the string is decoded to its code points.
    - A query without ORDER BY returns the rows by ascending primary key
      (SQLite scans the table in rowid order).
    - A notification is stored as the code builds it: the NOT NULL constraint
      on its user, which only an item without owner can violate, is not
      enforced. *)

From Stdlib Require Import QArith Qround Lqa Qabs Qpower.
From stdpp Require Import gmap strings list fin_maps sorting.

Local Open Scope Z_scope.

(** ** models.py: enumerations *)

Inductive ItemType := LOST | FOUND.

Inductive ItemStatus := OPEN | MATCHING | NEGOTIATING | MATCHED | CLOSED.

Module NegotiationStatus.
Inductive t :=
| ACTIVE | SUCCESS | FAILED | PENDING_CONFIRM | CONFIRMED | REJECTED
| SCHEDULE_PENDING | WAITING_RETURN | RETURNED | RETURN_FAILED.
End NegotiationStatus.

Inductive NotificationType :=
| MATCH_FOUND | CONFIRM_REQUEST | SCHEDULE | NO_MATCH | NEGOTIATION_UPDATE.

#[global] Instance ItemType_eq_dec : EqDecision ItemType.
Proof. solve_decision. Defined.
#[global] Instance ItemStatus_eq_dec : EqDecision ItemStatus.
Proof. solve_decision. Defined.
#[global] Instance NegotiationStatus_eq_dec : EqDecision NegotiationStatus.t.
Proof. solve_decision. Defined.

(** ** models.py: rows *)

Module Item.
Record t := mk {
  title : string;
  description : string;
  ai_description : option string;
  type : ItemType;
  status : ItemStatus;
  location : option string;
  owner_id : option Z
}.
Definition set_status (s : ItemStatus) (i : t) : t :=
  mk (title i) (description i) (ai_description i) (type i) s (location i) (owner_id i).
End Item.

(** ** Python values *)

(** [x or ""] on an optional string. *)
Definition or_empty (x : option string) : string := default ""%string x.

(** Truth value of a string: the empty string is false. *)
Definition str_truthy (s : string) : bool := negb (String.eqb s "").

(** A Python [str] is a sequence of code points; a string of this development
    holds its UTF-8 encoding. *)
Module Str.

(** UTF-8 decoding; a byte that starts no complete sequence stands for
    itself. *)
Fixpoint utf8_decode (bytes : list N) : list N :=
  match bytes with
  | [] => []
  | b0 :: bytes1 =>
      match bytes1 with
      | [] => [b0]
      | b1 :: bytes2 =>
          if (b0 <? 192)%N then b0 :: utf8_decode bytes1
          else if (b0 <? 224)%N
          then ((b0 - 192) * 64 + (b1 - 128))%N :: utf8_decode bytes2
          else
            match bytes2 with
            | [] => b0 :: utf8_decode bytes1
            | b2 :: bytes3 =>
                if (b0 <? 240)%N
                then ((b0 - 224) * 4096 + (b1 - 128) * 64 + (b2 - 128))%N
                     :: utf8_decode bytes3
                else
                  match bytes3 with
                  | [] => b0 :: utf8_decode bytes1
                  | b3 :: bytes4 =>
                      ((b0 - 240) * 262144 + (b1 - 128) * 4096
                       + (b2 - 128) * 64 + (b3 - 128))%N
                      :: utf8_decode bytes4
                  end
            end
      end
  end.

Definition code_points (s : string) : list N :=
  utf8_decode (Ascii.N_of_ascii <$> String.list_ascii_of_string s).

(** UTF-8 encoding of one code point, and the string of a sequence of code
    points. *)
Definition utf8_encode (c : N) : list N :=
  if (c <? 128)%N then [c]
  else if (c <? 2048)%N then [192 + c / 64; 128 + c mod 64]%N
  else if (c <? 65536)%N
  then [224 + c / 4096; 128 + (c / 64) mod 64; 128 + c mod 64]%N
  else [240 + c / 262144; 128 + (c / 4096) mod 64; 128 + (c / 64) mod 64;
        128 + c mod 64]%N.

Definition of_code_points (s : list N) : string :=
  String.string_of_list_ascii (Ascii.ascii_of_N <$> (s ≫= utf8_encode)).

(** [c.isspace()]: the characters [strip()] removes. *)
Definition isspace (c : N) : bool :=
  ((9 <=? c) && (c <=? 13) || (28 <=? c) && (c <=? 32)
   || (c =? 133) || (c =? 160) || (c =? 5760)
   || (8192 <=? c) && (c <=? 8202)
   || (c =? 8232) || (c =? 8233) || (c =? 8239) || (c =? 8287) || (c =? 12288))%N.

(** [s.strip()] on the code points. *)
Fixpoint lstrip (s : list N) : list N :=
  match s with
  | [] => []
  | c :: s' => if isspace c then lstrip s' else s
  end.
Definition strip (s : list N) : list N := reverse (lstrip (reverse (lstrip s))).

End Str.

(** [s.strip()]. *)
Definition strip (s : string) : string :=
  Str.of_code_points (Str.strip (Str.code_points s)).

(** Nearest integer, ties to even. *)
Definition round_half_even (x : Q) : Z :=
  let f := Qfloor x in
  match (x - inject_Z f ?= 1 # 2)%Q with
  | Lt => f
  | Gt => f + 1
  | Eq => if Z.even f then f else f + 1
  end.

(** [round(x, ndigits)] for [ndigits >= 0]: the multiple of [10^-ndigits]
    nearest to the value of [x], ties to even; it stands for the float nearest
    to it, which is what Python returns. *)
Definition py_round (x : Q) (ndigits : nat) : Q :=
  (inject_Z (round_half_even (x * inject_Z (10 ^ Z.of_nat ndigits)))
   / inject_Z (10 ^ Z.of_nat ndigits))%Q.

(** [floor (log2 x)] for a positive rational. *)
Definition Qlog2 (x : Q) : Z :=
  let k := Z.log2 (Qnum x) - Z.log2 (Z.pos (Qden x)) in
  if Qle_bool (2 ^ k) x then k else k - 1.

(** The float nearest to [x], ties to the even significand: [x] is scaled by
    the power of two that brings its magnitude into [[2^52, 2^53)], or by
    [2^-1074] in the subnormal range, and rounded to an integer.  Infinities,
    NaN and overflow are left out: the floats computed here stay below 2 in
    magnitude. *)
Definition binary64 (x : Q) : Q :=
  let e := Z.max (Qlog2 (Qabs x) - 52) (-1074) in
  (inject_Z (round_half_even (x / 2 ^ e)) * 2 ^ e)%Q.

(** [x + y], [x * y] and [x / y] on floats. *)
Definition float_add (x y : Q) : Q := binary64 (x + y).
Definition float_mul (x y : Q) : Q := binary64 (x * y).
Definition float_div (x y : Q) : Q := binary64 (x / y).

(** [sum(xs)] on floats: left to right, starting from 0, as CPython adds up
    to version 3.11 (from 3.12 on [sum] compensates the rounding errors). *)
Definition py_sum (xs : list Q) : Q := fold_left float_add xs 0%Q.

(** ** services.py: MatchService.calculate_match_score *)

(** The last lines of [calculate_match_score], from [if not scores] on: the
    weighted average of the scores collected so far. *)
Definition weighted_average (scores weights : list Q) : Q :=
  match scores with
  | [] => 0%Q
  | _ =>
      let total_weight := py_sum weights in
      let weighted_score :=
        float_div (py_sum (map (λ sw, float_mul (fst sw) (snd sw)) (zip scores weights)))
                  total_weight in
      py_round weighted_score 4
  end.

Section MatchScore.

(** [MatchService._calculate_similarity]. *)
Variable _calculate_similarity : string → string → Q.

(** The literals [0.3] and [0.1] are the floats nearest to 3/10 and 1/10. *)
Definition calculate_match_score (lost_item found_item : Item.t) : Q :=
  let title_score :=
    _calculate_similarity (Item.title lost_item) (Item.title found_item) in
  let scores := [title_score] in
  let weights := [binary64 (3 # 10)] in
  let desc1 := Item.description lost_item in
  let desc2 := Item.description found_item in
  let '(scores, weights) :=
    if str_truthy desc1 && str_truthy desc2
    then (scores ++ [_calculate_similarity desc1 desc2], weights ++ [binary64 (3 # 10)])
    else (scores, weights) in
  let ai_desc1 := or_empty (Item.ai_description lost_item) in
  let ai_desc2 := or_empty (Item.ai_description found_item) in
  let '(scores, weights) :=
    if str_truthy ai_desc1 && str_truthy ai_desc2
    then (scores ++ [_calculate_similarity ai_desc1 ai_desc2],
          weights ++ [binary64 (3 # 10)])
    else (scores, weights) in
  let loc1 := or_empty (Item.location lost_item) in
  let loc2 := or_empty (Item.location found_item) in
  let '(scores, weights) :=
    if str_truthy loc1 && str_truthy loc2
    then (scores ++ [_calculate_similarity loc1 loc2], weights ++ [binary64 (1 # 10)])
    else (scores, weights) in
  weighted_average scores weights.

(** The score in the claim's words: the comparisons that are present, each
    a weight and a similarity, and their weighted average, in exact
    arithmetic. *)
Definition both_non_empty (a b : option string) : bool :=
  match a, b with
  | Some (String _ _), Some (String _ _) => true
  | _, _ => false
  end.

Definition spec_comparisons (lost found : Item.t) : list (Q * Q) :=
  [((3 # 10)%Q, _calculate_similarity (Item.title lost) (Item.title found))]
  ++ (if both_non_empty (Some (Item.description lost)) (Some (Item.description found))
      then [((3 # 10)%Q,
             _calculate_similarity (Item.description lost) (Item.description found))]
      else [])
  ++ (if both_non_empty (Item.ai_description lost) (Item.ai_description found)
      then [((3 # 10)%Q,
             _calculate_similarity (or_empty (Item.ai_description lost))
                                   (or_empty (Item.ai_description found)))]
      else [])
  ++ (if both_non_empty (Item.location lost) (Item.location found)
      then [((1 # 10)%Q,
             _calculate_similarity (or_empty (Item.location lost))
                                   (or_empty (Item.location found)))]
      else []).

Definition spec_weighted_sum (cs : list (Q * Q)) : Q :=
  foldr (λ c acc, (c.1 * c.2 + acc)%Q) 0%Q cs.
Definition spec_weight_total (cs : list (Q * Q)) : Q :=
  foldr (λ c acc, (c.1 + acc)%Q) 0%Q cs.

Definition spec_average (lost found : Item.t) : Q :=
  let cs := spec_comparisons lost found in
  (spec_weighted_sum cs / spec_weight_total cs)%Q.

End MatchScore.

(** ** models.py: the remaining rows *)

(** One entry of [NegotiationSession.chat_log]: a dict read with [.get]. *)
Module Message.
Record t := mk {
  sender : string;
  content : option string;
  action_type : option string
}.
End Message.

Module NegotiationSession.
Record t := mk {
  lost_item_id : option Z;
  found_item_id : option Z;
  status : NegotiationStatus.t;
  match_score : Q;
  chat_log : list Message.t;
  completed_at : bool;
  seeker_confirmed : option bool;
  finder_confirmed : option bool
}.
Definition set_status (x : NegotiationStatus.t) (s : t) : t :=
  mk (lost_item_id s) (found_item_id s) x (match_score s) (chat_log s)
     (completed_at s) (seeker_confirmed s) (finder_confirmed s).
Definition set_chat_log (x : list Message.t) (s : t) : t :=
  mk (lost_item_id s) (found_item_id s) (status s) (match_score s) x
     (completed_at s) (seeker_confirmed s) (finder_confirmed s).
Definition set_completed_at (s : t) : t :=
  mk (lost_item_id s) (found_item_id s) (status s) (match_score s) (chat_log s)
     true (seeker_confirmed s) (finder_confirmed s).
Definition set_seeker_confirmed (x : option bool) (s : t) : t :=
  mk (lost_item_id s) (found_item_id s) (status s) (match_score s) (chat_log s)
     (completed_at s) x (finder_confirmed s).
Definition set_finder_confirmed (x : option bool) (s : t) : t :=
  mk (lost_item_id s) (found_item_id s) (status s) (match_score s) (chat_log s)
     (completed_at s) (seeker_confirmed s) x.
Definition clear_item_ids (s : t) : t :=
  mk None None (status s) (match_score s) (chat_log s)
     (completed_at s) (seeker_confirmed s) (finder_confirmed s).
End NegotiationSession.

Module FailedMatch.
Record t := mk {
  lost_item_id : option Z;
  found_item_id : option Z;
  session_id : option Z;
  reason : option string
}.
End FailedMatch.

Module ItemImage.
Record t := mk { item_id : Z; image_path : string }.
End ItemImage.

Module Notification.
Record t := mk {
  user_id : option Z;
  type : NotificationType;
  related_session_id : option Z
}.
End Notification.

Module ReturnSchedule.
Record t := mk {
  session_id : Z;
  proposed_time : option Z;
  proposed_location : option string;
  notes : option string;
  status : string;
  reject_reason : option string;
  seeker_confirmed : bool;
  finder_confirmed : bool
}.
Definition set_seeker_confirmed (x : bool) (r : t) : t :=
  mk (session_id r) (proposed_time r) (proposed_location r) (notes r) (status r)
     (reject_reason r) x (finder_confirmed r).
Definition set_finder_confirmed (x : bool) (r : t) : t :=
  mk (session_id r) (proposed_time r) (proposed_location r) (notes r) (status r)
     (reject_reason r) (seeker_confirmed r) x.
End ReturnSchedule.

(** ** The database *)

(** The rows of a table with an integer primary key, as a query without
    ORDER BY returns them: by ascending key. *)
Definition by_key {A} (a b : Z * A) : Prop := a.1 ≤ b.1.
#[global] Instance by_key_dec {A} : RelDecision (@by_key A) :=
  λ a b, decide (a.1 ≤ b.1).
Definition rows {A} (m : gmap Z A) : list (Z * A) :=
  merge_sort by_key (map_to_list m).

Record DB := mkDB {
  items : gmap Z Item.t;
  item_images : list ItemImage.t;
  negotiation_sessions : gmap Z NegotiationSession.t;
  failed_matches : list FailedMatch.t;
  notifications : list Notification.t;
  return_schedules : list ReturnSchedule.t
}.

Definition set_items (x : gmap Z Item.t) (db : DB) : DB :=
  mkDB x (item_images db) (negotiation_sessions db) (failed_matches db)
       (notifications db) (return_schedules db).
Definition set_item_images (x : list ItemImage.t) (db : DB) : DB :=
  mkDB (items db) x (negotiation_sessions db) (failed_matches db)
       (notifications db) (return_schedules db).
Definition set_negotiation_sessions (x : gmap Z NegotiationSession.t) (db : DB) : DB :=
  mkDB (items db) (item_images db) x (failed_matches db)
       (notifications db) (return_schedules db).
Definition set_failed_matches (x : list FailedMatch.t) (db : DB) : DB :=
  mkDB (items db) (item_images db) (negotiation_sessions db) x
       (notifications db) (return_schedules db).
Definition set_notifications (x : list Notification.t) (db : DB) : DB :=
  mkDB (items db) (item_images db) (negotiation_sessions db) (failed_matches db)
       x (return_schedules db).
Definition set_return_schedules (x : list ReturnSchedule.t) (db : DB) : DB :=
  mkDB (items db) (item_images db) (negotiation_sessions db) (failed_matches db)
       (notifications db) x.

(** [item.status = s] on the row with primary key [id]. *)
Definition set_item_status (id : Z) (s : ItemStatus) (db : DB) : DB :=
  set_items (alter (Item.set_status s) id (items db)) db.

(** Writing back the session row [session] with primary key [id]. *)
Definition put_session (id : Z) (session : NegotiationSession.t) (db : DB) : DB :=
  set_negotiation_sessions (<[id := session]> (negotiation_sessions db)) db.

(** [db.add(row)] on a list table. *)
Definition add_failed_match (f : FailedMatch.t) (db : DB) : DB :=
  set_failed_matches (failed_matches db ++ [f]) db.

(** The relationships [session.lost_item] and [session.found_item]: the key and
    the row, [None] when the reference is NULL or the row is gone. *)
Definition item_at (db : DB) (ref : option Z) : option (Z * Item.t) :=
  id ← ref; it ← items db !! id; Some (id, it).
Definition lost_item (db : DB) (s : NegotiationSession.t) : option (Z * Item.t) :=
  item_at db (NegotiationSession.lost_item_id s).
Definition found_item (db : DB) (s : NegotiationSession.t) : option (Z * Item.t) :=
  item_at db (NegotiationSession.found_item_id s).

(** The next value of an autoincrement primary key. *)
Definition next_id {A} (m : gmap Z A) : Z :=
  1 + map_fold (λ k _ acc, Z.max k acc) 0 m.

(** ** config.py *)

Definition MAX_NEGOTIATION_ROUNDS : nat := 20.
Definition MIN_MATCH_SCORE : Q := (3 # 10)%Q.

(** ** services.py: MatchService.find_matches *)

(** SQL [x NOT IN (l)] as a filter: only a true predicate keeps the row, and a
    NULL in [l] makes the predicate unknown for every [x] outside [l]. *)
Definition sql_notin (x : Z) (l : list (option Z)) : bool :=
  forallb (λ y, match y with Some y => negb (x =? y) | None => false end) l.

(** [column != value] as a filter, where SQLAlchemy renders the comparison
    with the value [None] as [column IS NOT NULL]. *)
Definition sql_ne (a b : option Z) : bool :=
  match a, b with
  | Some a, Some b => negb (a =? b)
  | Some _, None => true
  | None, _ => false
  end.

(** SQL [a == b] on nullable integers as a filter. *)
Definition sql_eq (a b : option Z) : bool :=
  match a, b with
  | Some a, Some b => a =? b
  | _, _ => false
  end.

(** An entry of the list [find_matches] returns: [{"item": ..., "score": ...}]. *)
Module Match.
Record t := mk { item_id : Z; item : Item.t; score : Q }.
End Match.

(** [matches.sort(key=lambda x: x["score"], reverse=True)]: stable. *)
Fixpoint insert_desc (x : Match.t) (l : list Match.t) : list Match.t :=
  match l with
  | [] => [x]
  | y :: l' =>
      if Qle_bool (Match.score y) (Match.score x)
      then x :: y :: l'
      else y :: insert_desc x l'
  end.
Definition sort_desc (l : list Match.t) : list Match.t :=
  foldr insert_desc [] l.

(** [l[:limit]], also for a negative limit. *)
Definition slice_to {A} (l : list A) (limit : Z) : list A :=
  if 0 <=? limit then take (Z.to_nat limit) l
  else take (length l - Z.to_nat (- limit)) l.

Section FindMatches.

Variable _calculate_similarity : string → string → Q.

Definition failed_ids (db : DB) (lost_id : Z) : list (option Z) :=
  map FailedMatch.found_item_id
    (filter (λ f, sql_eq (FailedMatch.lost_item_id f) (Some lost_id) = true)
            (failed_matches db)).

Definition found_items (db : DB) (lost_id : Z) (lost_item : Item.t) : list (Z * Item.t) :=
  let failed_ids := failed_ids db lost_id in
  filter (λ r,
      bool_decide (Item.type r.2 = FOUND)
      && (bool_decide (Item.status r.2 = OPEN) || bool_decide (Item.status r.2 = MATCHING))
      && sql_ne (Item.owner_id r.2) (Item.owner_id lost_item)
      && match failed_ids with [] => true | _ => sql_notin r.1 failed_ids end = true)
    (rows (items db)).

Definition find_matches (db : DB) (lost_id : Z) (lost_item : Item.t) (limit : Z)
  : list Match.t :=
  let matches :=
    omap (λ r,
        let score := calculate_match_score _calculate_similarity lost_item r.2 in
        if Qle_bool MIN_MATCH_SCORE score then Some (Match.mk r.1 r.2 score) else None)
      (found_items db lost_id lost_item) in
  slice_to (sort_desc matches) limit.

End FindMatches.

(** ** agents.py *)

(** What [LLMInterface.generate_response] returns: a dict read with [.get]. *)
Module Decision.
Record t := mk { action : option string; content : option string }.
End Decision.

(** What [build_seeker_system_prompt] and [build_finder_system_prompt]
    interpolate into the prompt text: which of the two texts it is, and the
    title, description and location of the agent's item. *)
Module SystemPrompt.
Record t := mk {
  role : string;
  title : string;
  description : string;
  location : option string
}.
End SystemPrompt.

Module Agent.
Record t := mk {
  name : string;
  role : string;
  item_knowledge : option Item.t;
  memory : list Message.t
}.
Definition set_memory (x : list Message.t) (a : t) : t :=
  mk (name a) (role a) (item_knowledge a) x.
End Agent.

Definition SeekerAgent (name : string) (item_knowledge : option Item.t) : Agent.t :=
  Agent.mk name "Seeker" item_knowledge [].
Definition FinderAgent (name : string) (item_knowledge : option Item.t) : Agent.t :=
  Agent.mk name "Finder" item_knowledge [].

(** Results of a call that may raise [AttributeError] on a [None] object. *)
Inductive outcome (A : Type) :=
| Returned (a : A)
| Raised.
Arguments Returned {A} a.
Arguments Raised {A}.

(** The dict [run_full_negotiation] returns; its ["session"] entry is the row
    of the session in the database returned with it. *)
Inductive NegotiationResult :=
| ResultError
| ResultStatus (status : string) (rounds : nat).

Definition result_status (r : NegotiationResult) : option string :=
  match r with
  | ResultError => None
  | ResultStatus status _ => Some status
  end.

(** [BaseAgent], over the language-model client shared by both agents
    ([create_llm]) and its [generate_response]; the user prompt is the sender
    and content of every turn in the agent's memory (the opening prompt when
    there is none). *)
Module BaseAgent.
Section WithLLM.

Variable LLM : Type.
Variable generate_response :
  LLM → SystemPrompt.t → list (string * option string) → Decision.t * LLM.

Definition _build_system_prompt (a : Agent.t) : option SystemPrompt.t :=
  item ← Agent.item_knowledge a;
  Some (SystemPrompt.mk (Agent.role a) (Item.title item) (Item.description item)
                        (Item.location item)).

(** [None] is the [AttributeError] of building the prompt of an agent
    without item. *)
Definition decide (a : Agent.t) (llm : LLM) : option (Decision.t * LLM) :=
  system_prompt ← _build_system_prompt a;
  let user_prompt := map (λ m, (Message.sender m, Message.content m)) (Agent.memory a) in
  Some (generate_response llm system_prompt user_prompt).

(** The outgoing message and the agent that remembers it. *)
Definition execute (a : Agent.t) (decision : Decision.t) : Message.t * Agent.t :=
  let action := Decision.action decision in
  let content := Decision.content decision in
  let outgoing_message := Message.mk (Agent.role a) content action in
  (outgoing_message, Agent.set_memory (Agent.memory a ++ [outgoing_message]) a).

End WithLLM.
End BaseAgent.

Section Negotiation.

Variable LLM : Type.
Variable generate_response :
  LLM → SystemPrompt.t → list (string * option string) → Decision.t * LLM.

(** ** services.py: NegotiationService *)

Definition create_session (lost_item_id found_item_id : Z) (match_score : Q) (db : DB)
  : Z * DB :=
  let db := set_item_status lost_item_id NEGOTIATING db in
  let db := set_item_status found_item_id NEGOTIATING db in
  let session :=
    NegotiationSession.mk (Some lost_item_id) (Some found_item_id)
      NegotiationStatus.ACTIVE match_score [] false None None in
  let id := next_id (negotiation_sessions db) in
  (id, put_session id session db).

Definition _hydrate_agents (db : DB) (session : NegotiationSession.t) : Agent.t * Agent.t :=
  let seeker := SeekerAgent "SeekerBot" (snd <$> lost_item db session) in
  let finder := FinderAgent "FinderBot" (snd <$> found_item db session) in
  let chat_log := NegotiationSession.chat_log session in
  (Agent.set_memory chat_log seeker, Agent.set_memory chat_log finder).

(** The body of [for round_num in range(MAX_NEGOTIATION_ROUNDS)] over the
    values [round_num] still has to take, and the code after the loop. *)
Fixpoint negotiation_loop (rounds : list nat) (session_id : Z)
    (session : NegotiationSession.t) (seeker finder : Agent.t) (llm : LLM) (db : DB)
  : outcome NegotiationResult * LLM * DB :=
  match rounds with
  | [] =>
      let session :=
        NegotiationSession.set_completed_at
          (NegotiationSession.set_status NegotiationStatus.FAILED session) in
      (Returned (ResultStatus "MAX_ROUNDS" MAX_NEGOTIATION_ROUNDS), llm,
       put_session session_id session db)
  | round_num :: rounds =>
      let last_sender := Message.sender <$> last (NegotiationSession.chat_log session) in
      let current_agent :=
        if bool_decide (last_sender ≠ Some "Seeker"%string) then seeker else finder in
      match BaseAgent.decide LLM generate_response current_agent llm with
      | None => (Raised, llm, db)
      | Some (decision, llm) =>
          let message := (BaseAgent.execute current_agent decision).1 in
          let current_log := NegotiationSession.chat_log session ++ [message] in
          let session := NegotiationSession.set_chat_log current_log session in
          let db := put_session session_id session db in
          let seeker := Agent.set_memory current_log seeker in
          let finder := Agent.set_memory current_log finder in
          let action_type := Message.action_type message in
          if bool_decide (action_type = Some "AGREE"%string) then
            let session :=
              NegotiationSession.set_completed_at
                (NegotiationSession.set_status NegotiationStatus.PENDING_CONFIRM session) in
            (Returned (ResultStatus "SUCCESS" (round_num + 1)), llm,
             put_session session_id session db)
          else if bool_decide (action_type = Some "REJECT"%string) then
            let session :=
              NegotiationSession.set_completed_at
                (NegotiationSession.set_status NegotiationStatus.FAILED session) in
            (Returned (ResultStatus "FAILED" (round_num + 1)), llm,
             put_session session_id session db)
          else
            negotiation_loop rounds session_id session seeker finder llm db
      end
  end.

Definition run_full_negotiation (session_id : Z) (llm : LLM) (db : DB)
  : outcome NegotiationResult * LLM * DB :=
  match negotiation_sessions db !! session_id with
  | None => (Returned ResultError, llm, db)
  | Some session =>
      if bool_decide (NegotiationSession.status session ≠ NegotiationStatus.ACTIVE)
      then (Returned ResultError, llm, db)
      else
        let '(seeker, finder) := _hydrate_agents db session in
        negotiation_loop (seq 0 MAX_NEGOTIATION_ROUNDS) session_id session
                         seeker finder llm db
  end.

End Negotiation.

(** [NegotiationService.handle_success]; [None] is the [AttributeError] of a
    session without item, raised before the commit. *)
Definition handle_success (session : NegotiationSession.t) (db : DB) : option DB :=
  '(lost_id, _) ← lost_item db session;
  let db := set_item_status lost_id MATCHED db in
  '(found_id, _) ← found_item db session;
  Some (set_item_status found_id MATCHED db).

(** [NegotiationService.handle_failure]. *)
Definition handle_failure (session_id : Z) (session : NegotiationSession.t)
    (reason : option string) (db : DB) : option DB :=
  let failed :=
    FailedMatch.mk (NegotiationSession.lost_item_id session)
                   (NegotiationSession.found_item_id session)
                   (Some session_id) reason in
  let db := add_failed_match failed db in
  '(lost_id, _) ← lost_item db session;
  let db := set_item_status lost_id OPEN db in
  '(found_id, _) ← found_item db session;
  Some (set_item_status found_id OPEN db).

(** [NotificationService.send]. *)
Definition send (user_id : option Z) (type : NotificationType) (session_id : option Z)
    (db : DB) : DB :=
  set_notifications (notifications db ++ [Notification.mk user_id type session_id]) db.

(** ** services.py: BackgroundTaskService.run_auto_matching *)

Section AutoMatching.

Variable _calculate_similarity : string → string → Q.
Variable LLM : Type.
Variable generate_response :
  LLM → SystemPrompt.t → list (string * option string) → Decision.t * LLM.

(** One pass of [for match in matches]: a session on the candidate, its
    negotiation, and what follows from the result.  [inl] is the [return] on
    success, [inr] the [continue]. *)
Definition try_match (lost_item_id : Z) (lost_item : Item.t) (m : Match.t)
    (llm : LLM) (db : DB) : outcome (unit + unit) * LLM * DB :=
  let found_item_id := Match.item_id m in
  let found_item := Match.item m in
  let score := Match.score m in
  let '(session_id, db) := create_session lost_item_id found_item_id score db in
  let '(result, llm, db) := run_full_negotiation LLM generate_response session_id llm db in
  match result with
  | Raised => (Raised, llm, db)
  | Returned result =>
      if bool_decide (result_status result = Some "SUCCESS"%string) then
        let db := send (Item.owner_id lost_item) MATCH_FOUND (Some session_id) db in
        let db := send (Item.owner_id found_item) MATCH_FOUND (Some session_id) db in
        (Returned (inl ()), llm, db)
      else
        (* [session] is the object [create_session] returned: the row at
           [session_id], which the negotiation has updated *)
        match negotiation_sessions db !! session_id with
        | None => (Raised, llm, db)
        | Some session =>
            match handle_failure session_id session (result_status result) db with
            | None => (Raised, llm, db)
            | Some db => (Returned (inr ()), llm, db)
            end
        end
  end.

Fixpoint matching_loop (lost_item_id : Z) (lost_item : Item.t) (matches : list Match.t)
    (llm : LLM) (db : DB) : outcome unit * LLM * DB :=
  match matches with
  | [] =>
      let db := set_item_status lost_item_id OPEN db in
      (Returned (), llm, send (Item.owner_id lost_item) NO_MATCH None db)
  | m :: matches =>
      match try_match lost_item_id lost_item m llm db with
      | (Raised, llm, db) => (Raised, llm, db)
      | (Returned (inl _), llm, db) => (Returned (), llm, db)
      | (Returned (inr _), llm, db) => matching_loop lost_item_id lost_item matches llm db
      end
  end.

Definition run_auto_matching (lost_item_id : Z) (llm : LLM) (db : DB)
  : outcome unit * LLM * DB :=
  match items db !! lost_item_id with
  | None => (Returned (), llm, db)
  | Some lost_item =>
      let db := set_item_status lost_item_id MATCHING db in
      let lost_item := Item.set_status MATCHING lost_item in
      let matches := find_matches _calculate_similarity db lost_item_id lost_item 10 in
      match matches with
      | [] =>
          let db := set_item_status lost_item_id OPEN db in
          (Returned (), llm, send (Item.owner_id lost_item) NO_MATCH None db)
      | _ => matching_loop lost_item_id lost_item matches llm db
      end
  end.

End AutoMatching.

(** ** main.py: the negotiation endpoints *)

(** What a request does: [Ok] commits the database it carries; an
    [HTTPException] or an [AttributeError] raised before the first commit
    leaves the database as it was. *)
Inductive response :=
| Ok (db : DB)
| HTTPException (status_code : Z)
| AttributeError.

Definition committed (db : DB) (r : response) : DB :=
  match r with
  | Ok db' => db'
  | _ => db
  end.

(** [item and item.owner_id == current_user.user_id] on a relationship. *)
Definition owned_by (it : option (Z * Item.t)) (user_id : Z) : bool :=
  match it with
  | Some (_, i) => bool_decide (Item.owner_id i = Some user_id)
  | None => false
  end.

(** Truth value of an optional boolean column. *)
Definition flag_truthy (b : option bool) : bool := default false b.

(** Truth value of an optional integer. *)
Definition id_truthy (x : option Z) : bool :=
  match x with
  | Some x => negb (x =? 0)
  | None => false
  end.

(** [if item_id: db = f(item_id, db)]. *)
Definition when_id (item_id : option Z) (f : Z → DB → DB) (db : DB) : DB :=
  match item_id with
  | Some id => if id =? 0 then db else f id db
  | None => db
  end.

Definition confirm_item (session_id : Z) (is_my_item : bool) (user_id : Z) (db : DB)
  : response :=
  match negotiation_sessions db !! session_id with
  | None => HTTPException 404
  | Some session =>
      let role_session :=
        if owned_by (lost_item db session) user_id then
          Some ("seeker"%string, NegotiationSession.set_seeker_confirmed (Some is_my_item) session)
        else if owned_by (found_item db session) user_id then
          Some ("finder"%string, NegotiationSession.set_finder_confirmed (Some is_my_item) session)
        else None in
      match role_session with
      | None => HTTPException 403
      | Some (role, session) =>
          if negb is_my_item then
            let session := NegotiationSession.set_status NegotiationStatus.REJECTED session in
            let db := put_session session_id session db in
            match handle_failure session_id session
                    (Some "用户确认不是自己的物品"%string) db with
            | None => AttributeError
            | Some db => Ok db
            end
          else if flag_truthy (NegotiationSession.seeker_confirmed session)
                  && flag_truthy (NegotiationSession.finder_confirmed session) then
            let session := NegotiationSession.set_status NegotiationStatus.CONFIRMED session in
            let db := put_session session_id session db in
            match handle_success session db with
            | None => AttributeError
            | Some db => Ok db
            end
          else Ok (put_session session_id session db)
      end
  end.

Definition force_match (session_id : Z) (user_id : Z) (db : DB) : response :=
  match negotiation_sessions db !! session_id with
  | None => HTTPException 404
  | Some session =>
      if negb (owned_by (lost_item db session) user_id) then HTTPException 403
      else if negb (bool_decide (NegotiationSession.status session = NegotiationStatus.FAILED)
                    || bool_decide (NegotiationSession.status session = NegotiationStatus.REJECTED))
      then HTTPException 400
      else
        let session := NegotiationSession.set_status NegotiationStatus.PENDING_CONFIRM session in
        let session := NegotiationSession.set_seeker_confirmed (Some true) session in
        let chat_log :=
          NegotiationSession.chat_log session
          ++ [Message.mk "System"
                (Some "失主确认这是自己的物品，已强制标记为匹配成功。"%string) None] in
        let session := NegotiationSession.set_chat_log chat_log session in
        Ok (put_session session_id session db)
  end.

(** The request body of [create_schedule]. *)
Module ScheduleCreate.
Record t := mk {
  proposed_time : Z;
  proposed_location : string;
  notes : option string
}.
End ScheduleCreate.

(** [query.filter(P).first()] on a list table, and the update of that row. *)
Definition first_where {A} (P : A → bool) (l : list A) : option A :=
  head (filter (λ x, P x = true) l).
Fixpoint update_first {A} (P : A → bool) (f : A → A) (l : list A) : list A :=
  match l with
  | [] => []
  | x :: l' => if P x then f x :: l' else x :: update_first P f l'
  end.

Definition of_session (session_id : Z) (r : ReturnSchedule.t) : bool :=
  ReturnSchedule.session_id r =? session_id.
Definition pending_of_session (session_id : Z) (r : ReturnSchedule.t) : bool :=
  of_session session_id r && String.eqb (ReturnSchedule.status r) "PENDING".

Definition create_schedule (session_id : Z) (schedule : ScheduleCreate.t) (user_id : Z)
    (db : DB) : response :=
  match negotiation_sessions db !! session_id with
  | None => HTTPException 404
  | Some session =>
      if negb (owned_by (found_item db session) user_id) then HTTPException 403
      else if negb (bool_decide (NegotiationSession.status session = NegotiationStatus.CONFIRMED))
      then HTTPException 400
      else
        let existing := first_where (of_session session_id) (return_schedules db) in
        let updated :=
          match existing with
          | Some existing =>
              if String.eqb (ReturnSchedule.status existing) "PENDING" then None
              else
                Some (update_first (of_session session_id)
                        (λ existing,
                           ReturnSchedule.mk (ReturnSchedule.session_id existing)
                             (Some (ScheduleCreate.proposed_time schedule))
                             (Some (ScheduleCreate.proposed_location schedule))
                             (ScheduleCreate.notes schedule)
                             "PENDING" None
                             (ReturnSchedule.seeker_confirmed existing)
                             (ReturnSchedule.finder_confirmed existing))
                        (return_schedules db))
          | None =>
              let new_schedule :=
                ReturnSchedule.mk session_id
                  (Some (ScheduleCreate.proposed_time schedule))
                  (Some (ScheduleCreate.proposed_location schedule))
                  (ScheduleCreate.notes schedule)
                  "PENDING" None false false in
              Some (return_schedules db ++ [new_schedule])
          end in
        match updated with
        | None => HTTPException 400
        | Some schedules =>
            let db := set_return_schedules schedules db in
            let session := NegotiationSession.set_status NegotiationStatus.SCHEDULE_PENDING session in
            let db := put_session session_id session db in
            let seeker_id := '(_, i) ← lost_item db session; Item.owner_id i in
            Ok (if id_truthy seeker_id then send seeker_id SCHEDULE (Some session_id) db else db)
        end
  end.

Definition approve_schedule (session_id : Z) (user_id : Z) (db : DB) : response :=
  match negotiation_sessions db !! session_id with
  | None => HTTPException 404
  | Some session =>
      if negb (owned_by (lost_item db session) user_id) then HTTPException 403
      else if bool_decide (NegotiationSession.status session ≠ NegotiationStatus.SCHEDULE_PENDING)
      then HTTPException 400
      else
        let schedules :=
          update_first (pending_of_session session_id)
            (λ schedule,
               ReturnSchedule.mk (ReturnSchedule.session_id schedule)
                 (ReturnSchedule.proposed_time schedule)
                 (ReturnSchedule.proposed_location schedule)
                 (ReturnSchedule.notes schedule)
                 "APPROVED" (ReturnSchedule.reject_reason schedule)
                 (ReturnSchedule.seeker_confirmed schedule)
                 (ReturnSchedule.finder_confirmed schedule))
            (return_schedules db) in
        let db := set_return_schedules schedules db in
        let session := NegotiationSession.set_status NegotiationStatus.WAITING_RETURN session in
        let db := put_session session_id session db in
        let finder_id := '(_, i) ← found_item db session; Item.owner_id i in
        Ok (if id_truthy finder_id
            then send finder_id NEGOTIATION_UPDATE (Some session_id) db else db)
  end.

(** The request body of [reject_schedule]. *)
Module RejectRequest.
Record t := mk { reason : string }.
End RejectRequest.

Definition reject_schedule (session_id : Z) (reject : RejectRequest.t) (user_id : Z)
    (db : DB) : response :=
  match negotiation_sessions db !! session_id with
  | None => HTTPException 404
  | Some session =>
      if negb (owned_by (lost_item db session) user_id) then HTTPException 403
      else if bool_decide (NegotiationSession.status session ≠ NegotiationStatus.SCHEDULE_PENDING)
      then HTTPException 400
      else if negb (str_truthy (RejectRequest.reason reject))
              || negb (str_truthy (strip (RejectRequest.reason reject)))
      then HTTPException 400
      else
        let schedules :=
          update_first (pending_of_session session_id)
            (λ schedule,
               ReturnSchedule.mk (ReturnSchedule.session_id schedule)
                 (ReturnSchedule.proposed_time schedule)
                 (ReturnSchedule.proposed_location schedule)
                 (ReturnSchedule.notes schedule)
                 "REJECTED" (Some (strip (RejectRequest.reason reject)))
                 (ReturnSchedule.seeker_confirmed schedule)
                 (ReturnSchedule.finder_confirmed schedule))
            (return_schedules db) in
        let db := set_return_schedules schedules db in
        let session := NegotiationSession.set_status NegotiationStatus.CONFIRMED session in
        let db := put_session session_id session db in
        let finder_id := '(_, i) ← found_item db session; Item.owner_id i in
        Ok (if id_truthy finder_id
            then send finder_id NEGOTIATION_UPDATE (Some session_id) db else db)
  end.

Definition start_return (session_id : Z) (user_id : Z) (db : DB) : response :=
  match negotiation_sessions db !! session_id with
  | None => HTTPException 404
  | Some session =>
      if bool_decide (NegotiationSession.status session ≠ NegotiationStatus.CONFIRMED)
      then HTTPException 400
      else
        let session := NegotiationSession.set_status NegotiationStatus.WAITING_RETURN session in
        Ok (put_session session_id session db)
  end.

(** The rows [confirm_return] deletes for one item. *)
Definition delete_failed_matches_of (item_id : Z) (db : DB) : DB :=
  set_failed_matches
    (filter (λ f, (sql_eq (FailedMatch.lost_item_id f) (Some item_id)
                   || sql_eq (FailedMatch.found_item_id f) (Some item_id)) = false)
            (failed_matches db)) db.
Definition delete_images_of (item_id : Z) (db : DB) : DB :=
  set_item_images
    (filter (λ i, (ItemImage.item_id i =? item_id) = false) (item_images db)) db.
Definition delete_item (item_id : Z) (db : DB) : DB :=
  set_items (delete item_id (items db)) db.

Definition confirm_return (session_id : Z) (is_returned : bool) (user_id : Z) (db : DB)
  : response :=
  match negotiation_sessions db !! session_id with
  | None => HTTPException 404
  | Some session =>
      if bool_decide (NegotiationSession.status session ≠ NegotiationStatus.WAITING_RETURN)
      then HTTPException 400
      else
        let is_seeker := owned_by (lost_item db session) user_id in
        let is_finder := owned_by (found_item db session) user_id in
        if negb (is_seeker || is_finder) then HTTPException 403
        else
          let '(schedules, session) :=
            if is_seeker then
              (update_first (of_session session_id)
                 (ReturnSchedule.set_seeker_confirmed is_returned) (return_schedules db),
               NegotiationSession.set_seeker_confirmed (Some is_returned) session)
            else
              (update_first (of_session session_id)
                 (ReturnSchedule.set_finder_confirmed is_returned) (return_schedules db),
               NegotiationSession.set_finder_confirmed (Some is_returned) session) in
          let db := set_return_schedules schedules db in
          let db := put_session session_id session db in
          if negb is_returned then
            let session :=
              NegotiationSession.set_completed_at
                (NegotiationSession.set_status NegotiationStatus.RETURN_FAILED session) in
            let lost := lost_item db session in
            let found := found_item db session in
            let db := match lost with Some (id, _) => set_item_status id OPEN db | None => db end in
            let db := match found with Some (id, _) => set_item_status id OPEN db | None => db end in
            let failed :=
              FailedMatch.mk (fst <$> lost) (fst <$> found) None
                             (Some "线下确认不匹配"%string) in
            Ok (put_session session_id session (add_failed_match failed db))
          else if flag_truthy (NegotiationSession.seeker_confirmed session)
                  && flag_truthy (NegotiationSession.finder_confirmed session) then
            let session :=
              NegotiationSession.set_completed_at
                (NegotiationSession.set_status NegotiationStatus.RETURNED session) in
            let lost_item_id := fst <$> lost_item db session in
            let found_item_id := fst <$> found_item db session in
            let db :=
              foldl (λ db item_id,
                       when_id item_id
                         (λ id db, delete_images_of id (delete_failed_matches_of id db)) db)
                    db [lost_item_id; found_item_id] in
            let session := NegotiationSession.clear_item_ids session in
            let db := put_session session_id session db in
            let db := when_id lost_item_id delete_item db in
            let db := when_id found_item_id delete_item db in
            Ok db
          else Ok db
  end.

(** [return_failed] passes its checks and then evaluates
    [datetime.datetime.utcnow()] where [datetime] is the class imported by
    [from datetime import datetime]: an [AttributeError] before any commit. *)
Definition return_failed (session_id : Z) (user_id : Z) (db : DB) : response :=
  match negotiation_sessions db !! session_id with
  | None => HTTPException 404
  | Some session =>
      if bool_decide (NegotiationSession.status session ≠ NegotiationStatus.WAITING_RETURN)
      then HTTPException 400
      else if negb (owned_by (lost_item db session) user_id
                    || owned_by (found_item db session) user_id)
      then HTTPException 403
      else AttributeError
  end.

(** ** Notions used to state the properties *)

(** The status of the item and of the session with a given key. *)
Definition item_status (db : DB) (id : Z) : option ItemStatus :=
  Item.status <$> items db !! id.
Definition session_status (db : DB) (session_id : Z) : option NegotiationStatus.t :=
  NegotiationSession.status <$> negotiation_sessions db !! session_id.

(** The schedules attached to a session. *)
Definition schedules_of (session_id : Z) (db : DB) : list ReturnSchedule.t :=
  filter (λ r, of_session session_id r = true) (return_schedules db).

(** A user is a party of a session when they own its lost or its found item;
    the other party's flag is the finder's for the owner of the lost item and
    the seeker's otherwise, following the order in which [confirm_item]
    assigns the role. *)
Definition is_party (db : DB) (session : NegotiationSession.t) (user_id : Z) : bool :=
  owned_by (lost_item db session) user_id || owned_by (found_item db session) user_id.
Definition other_party_confirmed (db : DB) (session : NegotiationSession.t) (user_id : Z)
  : bool :=
  if owned_by (lost_item db session) user_id
  then flag_truthy (NegotiationSession.finder_confirmed session)
  else flag_truthy (NegotiationSession.seeker_confirmed session).

(** The entry [force_match] appends to the chat log. *)
Definition audit_entry : Message.t :=
  Message.mk "System" (Some "失主确认这是自己的物品，已强制标记为匹配成功。"%string) None.

(** A similarity backend may overshoot 1 by its own rounding errors (the
    cosine of two equal TF-IDF vectors can come out as 1.0000000000000002);
    this much is allowed for. *)
Definition similarity_slack : Q := 1 # 1000000000.

(** The largest rounding error of one operation on floats below 2 in
    magnitude, and a bound of the error they add up to in a score. *)
Definition binary64_unit : Q := 1 # 9007199254740992.
Definition rounding_slack : Q := 1 # 1000000000000.

(** The midpoint between the multiples [j] and [j + 1] of 1/10000. *)
Definition midpoint (j : Z) : Q := (inject_Z (2 * j + 1) / inject_Z 20000)%Q.

(** The flag [confirm_item] writes for a party, and the flag of the other
    party. *)
Definition own_flag (db : DB) (session : NegotiationSession.t) (user_id : Z)
  : option bool :=
  if owned_by (lost_item db session) user_id
  then NegotiationSession.seeker_confirmed session
  else NegotiationSession.finder_confirmed session.
Definition other_flag (db : DB) (session : NegotiationSession.t) (user_id : Z)
  : option bool :=
  if owned_by (lost_item db session) user_id
  then NegotiationSession.finder_confirmed session
  else NegotiationSession.seeker_confirmed session.

(** A turn carries an action. *)
Definition carries (action : string) (m : Message.t) : Prop :=
  Message.action_type m = Some action.

(** The turn protocol as a relation: over the rounds that are left, the turns
    taken, the result returned and the status the session ends in. *)
Inductive protocol :
  list nat → list Message.t → NegotiationResult → NegotiationStatus.t → Prop :=
| protocol_exhausted :
    protocol [] [] (ResultStatus "MAX_ROUNDS" MAX_NEGOTIATION_ROUNDS)
             NegotiationStatus.FAILED
| protocol_agree round_num rounds m :
    carries "AGREE" m →
    protocol (round_num :: rounds) [m]
             (ResultStatus "SUCCESS" (round_num + 1)) NegotiationStatus.PENDING_CONFIRM
| protocol_reject round_num rounds m :
    carries "REJECT" m →
    protocol (round_num :: rounds) [m]
             (ResultStatus "FAILED" (round_num + 1)) NegotiationStatus.FAILED
| protocol_continue round_num rounds m turns result status :
    ¬ carries "AGREE" m → ¬ carries "REJECT" m →
    protocol rounds turns result status →
    protocol (round_num :: rounds) (m :: turns) result status.

(** Who speaks after a turn sent by [last_sender], and a run of turns that
    follows this rule from one turn to the next. *)
Definition next_speaker (last_sender : option string) : string :=
  if bool_decide (last_sender = Some "Seeker"%string) then "Finder" else "Seeker".

Fixpoint alternates (last_sender : option string) (turns : list Message.t) : Prop :=
  match turns with
  | [] => True
  | m :: turns =>
      Message.sender m = next_speaker last_sender
      ∧ alternates (Some (Message.sender m)) turns
  end.

(** A dialogue as the answers of the language model.  After the transcript
    [log] the speaker is the seeker unless the seeker spoke last; the model is
    asked with the prompt of the speaker's item and with the sender and
    content of every turn of the transcript, and the action and content it
    decides on are the speaker's next turn. *)
Section Dialogue.

Variable LLM : Type.
Variable generate_response :
  LLM → SystemPrompt.t → list (string * option string) → Decision.t * LLM.

Definition answer (lost found : Item.t) (log : list Message.t) (llm : LLM)
  : Message.t * LLM :=
  let speaker := next_speaker (Message.sender <$> last log) in
  let item := if String.eqb speaker "Seeker" then lost else found in
  let asked :=
    generate_response llm
      (SystemPrompt.mk speaker (Item.title item) (Item.description item)
                       (Item.location item))
      (map (λ m, (Message.sender m, Message.content m)) log) in
  (Message.mk speaker (Decision.content asked.1) (Decision.action asked.1), asked.2).

(** [answers lost found log llm turns llm']: from the transcript [log] and
    the model state [llm], the turns [turns] are the successive answers, and
    leave the model in the state [llm']. *)
Inductive answers (lost found : Item.t)
  : list Message.t → LLM → list Message.t → LLM → Prop :=
| answers_done log llm :
    answers lost found log llm [] llm
| answers_turn log llm m llm1 turns llm' :
    answer lost found log llm = (m, llm1) →
    answers lost found (log ++ [m]) llm1 turns llm' →
    answers lost found log llm (m :: turns) llm'.

End Dialogue.

(** The two agents of a session: each knows its item and plays its role, and
    both remember the transcript. *)
Definition hydrated (lost found : Item.t) (log : list Message.t)
    (seeker finder : Agent.t) : Prop :=
  Agent.item_knowledge seeker = Some lost
  ∧ Agent.role seeker = "Seeker"%string
  ∧ Agent.memory seeker = log
  ∧ Agent.item_knowledge finder = Some found
  ∧ Agent.role finder = "Finder"%string
  ∧ Agent.memory finder = log.

(** ** A worked example

    Three users, a lost pair of headphones, the same pair found by somebody
    else, and an umbrella; a similarity that only recognises equal texts, and
    a decision backend that replays a script of actions. *)

Definition exact_similarity (text1 text2 : string) : Q :=
  if String.eqb text1 text2 then 1%Q else 0%Q.

Definition scripted_response (script : list string) (system_prompt : SystemPrompt.t)
    (user_prompt : list (string * option string)) : Decision.t * list string :=
  match script with
  | action :: script => (Decision.mk (Some action) (Some "..."%string), script)
  | [] => (Decision.mk (Some "ASK"%string) (Some "..."%string), [])
  end.

Definition agree_script : list string :=
  ["ASK"; "ANSWER"; "CONFIRM"; "PROPOSE_MEET"; "AGREE"]%string.
Definition reject_script : list string := ["ASK"; "REJECT"]%string.

Definition alice : Z := 1.
Definition bob : Z := 2.
Definition carol : Z := 3.

Definition lost_headphones : Item.t :=
  Item.mk "black Sony headphones" "lost in the cafeteria" None LOST OPEN
          (Some "cafeteria"%string) (Some alice).
Definition found_headphones : Item.t :=
  Item.mk "black Sony headphones" "found on the 2nd floor, looks like Sony" None
          FOUND OPEN (Some "cafeteria"%string) (Some bob).
Definition found_umbrella : Item.t :=
  Item.mk "red umbrella" "left at the library gate" None FOUND OPEN
          (Some "library"%string) (Some carol).

Definition example_db : DB :=
  mkDB (<[1 := lost_headphones]> (<[2 := found_headphones]> (<[3 := found_umbrella]> ∅)))
       [ItemImage.mk 1 "uploads/1.jpg"; ItemImage.mk 2 "uploads/2.jpg";
        ItemImage.mk 3 "uploads/3.jpg"]
       ∅ [] [] [].

(** The session opened on the headphones, before any turn. *)
Definition session_active : NegotiationSession.t :=
  NegotiationSession.mk (Some 1) (Some 2) NegotiationStatus.ACTIVE (4 # 7)%Q [] false
                        None None.
Definition db_active : DB :=
  (create_session 1 2 (4 # 7)%Q example_db).2.

(** The states the example goes through: the automatic negotiation agrees,
    both owners confirm the item, the finder proposes a schedule and the
    seeker approves it. *)
Definition db_pending : DB :=
  (run_auto_matching exact_similarity (list string) scripted_response
                     1 agree_script example_db).2.
Definition db_seeker_confirmed : DB :=
  committed db_pending (confirm_item 1 true alice db_pending).
Definition db_confirmed : DB :=
  committed db_seeker_confirmed (confirm_item 1 true bob db_seeker_confirmed).
Definition first_proposal : ScheduleCreate.t :=
  ScheduleCreate.mk 1700000000 "library gate" None.
Definition latest_proposal : ScheduleCreate.t :=
  ScheduleCreate.mk 1700086400 "cafeteria entrance" (Some "after lunch"%string).
Definition db_scheduled : DB :=
  committed db_confirmed (create_schedule 1 first_proposal bob db_confirmed).
Definition db_waiting : DB :=
  committed db_scheduled (approve_schedule 1 alice db_scheduled).

(** The state after a negotiation that ended in a rejection. *)
Definition db_failed : DB :=
  (run_auto_matching exact_similarity (list string) scripted_response
                     1 reject_script example_db).2.

(** The row of session 1 in a state of the example, the candidate the
    matching engine returns for the lost headphones, the row a failed
    negotiation on them records, and a rejection whose reason is padded with
    blanks. *)
Definition session_in (db : DB) : NegotiationSession.t :=
  default session_active (negotiation_sessions db !! 1).
Definition headphones_match : Match.t :=
  Match.mk 2 found_headphones (5714 # 10000)%Q.
Definition failed_pair : FailedMatch.t :=
  FailedMatch.mk (Some 1) (Some 2) (Some 1) (Some "FAILED"%string).
Definition blank_padded_reason : RejectRequest.t :=
  RejectRequest.mk "  I have a class then  ".

(** A reason that is one ideographic space (U+3000), and the state after the
    seeker has called [confirm_item] once more while the first proposal was
    pending. *)
Definition blank_reason : RejectRequest.t := RejectRequest.mk "　".
Definition db_reconfirmed : DB :=
  committed db_scheduled (confirm_item 1 true alice db_scheduled).

(** Two items whose descriptions are empty, and a similarity that finds 3/8
    on their titles and 1/4 on their locations. *)
Definition tie_lost : Item.t :=
  Item.mk "blue steel water bottle" "" None LOST OPEN (Some "gym"%string) (Some alice).
Definition tie_found : Item.t :=
  Item.mk "steel bottle with a blue lid" "" None FOUND OPEN
          (Some "gym entrance"%string) (Some bob).
Definition tie_similarity (text1 text2 : string) : Q :=
  if String.eqb text1 "blue steel water bottle" then (3 # 8)%Q else (1 # 4)%Q.

(** * Properties *)

(** ** Rounding *)

Lemma round_half_even_comp (x y : Q) :
  (x == y)%Q → round_half_even x = round_half_even y.
Proof.
  intros Hxy. unfold round_half_even.
  rewrite (Qfloor_comp _ _ Hxy).
  assert (Hc : (x - inject_Z (Qfloor y) ?= 1 # 2)%Q = (y - inject_Z (Qfloor y) ?= 1 # 2)%Q).
  { apply Qcompare_comp; [by rewrite Hxy | reflexivity]. }
  by rewrite Hc.
Qed.

Lemma py_round_comp (x y : Q) (n : nat) :
  (x == y)%Q → py_round x n = py_round y n.
Proof.
  intros Hxy. unfold py_round. f_equal. f_equal.
  apply round_half_even_comp. by rewrite Hxy.
Qed.

Lemma round_half_even_error (x : Q) :
  (- (1 # 2) <= inject_Z (round_half_even x) - x
   ∧ inject_Z (round_half_even x) - x <= 1 # 2)%Q.
Proof.
  pose proof (Qfloor_le x) as Hfl.
  pose proof (Qlt_floor x) as Hlt.
  rewrite inject_Z_plus in Hlt. change (inject_Z 1) with 1%Q in Hlt.
  unfold round_half_even.
  destruct (x - inject_Z (Qfloor x) ?= 1 # 2)%Q eqn:Hc.
  - apply Qeq_alt in Hc. destruct (Z.even (Qfloor x)).
    + lra.
    + rewrite inject_Z_plus. change (inject_Z 1) with 1%Q. lra.
  - apply Qlt_alt in Hc. lra.
  - apply Qgt_alt in Hc. rewrite inject_Z_plus. change (inject_Z 1) with 1%Q. lra.
Qed.

(** Away from the midpoints, the nearest integer is the only integer within
    1/2. *)
Lemma round_half_even_unique (k : Z) (x : Q) :
  (inject_Z k - (1 # 2) < x)%Q → (x < inject_Z k + (1 # 2))%Q →
  round_half_even x = k.
Proof.
  intros Hlo Hhi. destruct (round_half_even_error x) as [H1 H2].
  set (r := round_half_even x) in *.
  assert (Hlt : (inject_Z r < inject_Z (k + 1))%Q).
  { rewrite inject_Z_plus. change (inject_Z 1) with 1%Q. lra. }
  assert (Hgt : (inject_Z (k - 1) < inject_Z r)%Q).
  { unfold Z.sub. rewrite inject_Z_plus. change (inject_Z (- (1))) with (- (1))%Q. lra. }
  rewrite <- Zlt_Qlt in Hlt, Hgt. lia.
Qed.

Lemma py_round_4 (x : Q) :
  py_round x 4 = (inject_Z (round_half_even (x * inject_Z 10000)) / inject_Z 10000)%Q.
Proof. reflexivity. Qed.

Lemma py_round_4_error (x : Q) :
  (- (1 # 20000) <= py_round x 4 - x ∧ py_round x 4 - x <= 1 # 20000)%Q.
Proof.
  rewrite py_round_4.
  destruct (round_half_even_error (x * inject_Z 10000)) as [H1 H2].
  set (k := inject_Z (round_half_even (x * inject_Z 10000))) in *.
  change (inject_Z 10000) with (10000 # 1)%Q in *.
  assert (Hk : (k / (10000 # 1) == k * (1 # 10000))%Q) by field.
  rewrite Hk. split; lra.
Qed.

(** ** Floats *)

Lemma Qlog2_below_2 (x : Q) : (0 <= x)%Q → (x < 2)%Q → Qlog2 x ≤ 0.
Proof.
  intros H0 H2. unfold Qlog2.
  set (k := Z.log2 (Qnum x) - Z.log2 (Z.pos (Qden x))).
  destruct (Qle_bool (2 ^ k) x) eqn:Hle.
  - apply Qle_bool_iff in Hle.
    assert (Hlt : (2 ^ k < 2 ^ 1)%Q) by (change (2 ^ 1)%Q with 2%Q; lra).
    apply Qpower_lt_compat_l_inv in Hlt; [lia | lra].
  - assert (Hn : Z.log2 (Qnum x) ≤ Z.log2 (2 * Z.pos (Qden x))).
    { apply Z.log2_le_mono. unfold Qlt in H2. simpl in H2. lia. }
    rewrite Z.log2_double in Hn by lia. lia.
Qed.

(** An operation whose exact result is below 2 in magnitude is off by at most
    [2^-53]. *)
Lemma binary64_error (x : Q) :
  (- 2 < x)%Q → (x < 2)%Q →
  (- binary64_unit <= binary64 x - x ∧ binary64 x - x <= binary64_unit)%Q.
Proof.
  intros Hlo Hhi. unfold binary64.
  set (e := Z.max (Qlog2 (Qabs x) - 52) (-1074)).
  assert (He : e ≤ -52).
  { assert (Qlog2 (Qabs x) ≤ 0); [| lia].
    apply Qlog2_below_2; [apply Qabs_nonneg |].
    apply Qabs_case; intros; lra. }
  assert (Hpos : (0 < 2 ^ e)%Q) by (apply Qpower_0_lt; lra).
  assert (Hle : (2 ^ e <= 2 ^ (-52))%Q) by (apply Qpower_le_compat_l; [lia | lra]).
  change (2 ^ (-52))%Q with (1 # 4503599627370496)%Q in Hle.
  destruct (round_half_even_error (x / 2 ^ e)) as [Hr1 Hr2].
  set (m := inject_Z (round_half_even (x / 2 ^ e))) in *.
  set (p := (2 ^ e)%Q) in *.
  assert (Hx : (x == (x / p) * p)%Q) by (field; lra).
  set (y := (x / p)%Q) in *.
  unfold binary64_unit.
  split; nra.
Qed.

Lemma binary64_zero (x : Q) : (x == 0)%Q → (binary64 x == 0)%Q.
Proof.
  intros Hx. unfold binary64.
  set (e := Z.max (Qlog2 (Qabs x) - 52) (-1074)).
  assert (Hpos : (0 < 2 ^ e)%Q) by (apply Qpower_0_lt; lra).
  rewrite (round_half_even_comp (x / 2 ^ e) 0).
  - change (inject_Z (round_half_even 0)) with 0%Q. ring.
  - rewrite Hx. field. lra.
Qed.

Lemma fold_float_add_zero (xs : list Q) (acc : Q) :
  (acc == 0)%Q → Forall (λ x, x == 0)%Q xs → (fold_left float_add xs acc == 0)%Q.
Proof.
  revert acc. induction xs as [|x xs IH]; intros acc Hacc Hall; [done |].
  inversion Hall as [|? ? Hx Hxs]; subst. simpl. apply IH; [| done].
  unfold float_add. apply binary64_zero. rewrite Hacc, Hx. ring.
Qed.

Lemma py_sum_zero (xs : list Q) : Forall (λ x, x == 0)%Q xs → (py_sum xs == 0)%Q.
Proof. by apply fold_float_add_zero. Qed.

Lemma weighted_average_zero (scores weights : list Q) :
  Forall (λ x, x == 0)%Q scores → (weighted_average scores weights == 0)%Q.
Proof.
  intros Hall. unfold weighted_average. destruct scores as [|s scores]; [reflexivity |].
  set (products := map _ _).
  assert (Hp : (py_sum products == 0)%Q).
  { apply py_sum_zero. unfold products. apply Forall_forall. intros p Hin.
    apply list_elem_of_fmap in Hin as ([a b] & -> & Hin). simpl.
    apply elem_of_zip_l in Hin. rewrite Forall_forall in Hall.
    unfold float_mul. apply binary64_zero. rewrite (Hall a Hin). ring. }
  rewrite (py_round_comp _ 0); [reflexivity |].
  unfold float_div. apply binary64_zero. rewrite Hp. unfold Qdiv. ring.
Qed.

(** ** The match score *)

(** The error bound of every float operation of the goal, innermost first,
    each result becoming a variable. *)
Ltac bound_binary64 :=
  repeat match goal with
  | |- context [binary64 ?x] =>
      lazymatch x with context [binary64 _] => fail | _ => idtac end;
      let H := fresh "Hb" in
      let v := fresh "v" in
      assert (H : (- binary64_unit <= binary64 x - x
                   ∧ binary64 x - x <= binary64_unit)%Q)
        by (apply binary64_error; unfold binary64_unit in *; lra);
      set (v := binary64 x) in *; clearbody v; destruct H
  end.

(** A closed term replaced by its value. *)
Ltac concrete t :=
  let v := eval vm_compute in t in
  replace t with v by (vm_compute; reflexivity).

Section MatchScoreFacts.

Variable sim : string → string → Q.

Lemma str_truthy_both (a b : option string) :
  str_truthy (or_empty a) && str_truthy (or_empty b) = both_non_empty a b.
Proof. by destruct a as [[|]|], b as [[|]|]. Qed.

Lemma both_non_empty_some (a b : string) :
  both_non_empty (Some a) (Some b) = str_truthy a && str_truthy b.
Proof. by destruct a, b. Qed.

(** The scores and weights the code collects are those of the comparisons of
    the claim, each weight as the float nearest to it. *)
Lemma calculate_match_score_comparisons (lost found : Item.t) :
  calculate_match_score sim lost found
  = weighted_average (snd <$> spec_comparisons sim lost found)
                     ((λ c, binary64 c.1) <$> spec_comparisons sim lost found).
Proof.
  unfold calculate_match_score, spec_comparisons.
  rewrite !str_truthy_both, both_non_empty_some.
  by destruct (str_truthy (Item.description lost) && str_truthy (Item.description found)),
    (both_non_empty (Item.ai_description lost) (Item.ai_description found)),
    (both_non_empty (Item.location lost) (Item.location found)).
Qed.

Lemma spec_comparisons_not_nil (lost found : Item.t) :
  spec_comparisons sim lost found ≠ [].
Proof. done. Qed.

Hypothesis sim_range : ∀ a b, (0 <= sim a b ∧ sim a b <= 1 + similarity_slack)%Q.

(** The float that is rounded to four places is within [rounding_slack] of
    the exact weighted average. *)
Lemma calculate_match_score_close (lost found : Item.t) :
  ∃ q : Q,
    calculate_match_score sim lost found = py_round q 4
    ∧ (- rounding_slack <= q - spec_average sim lost found
       ∧ q - spec_average sim lost found <= rounding_slack)%Q
    ∧ (0 <= spec_average sim lost found
       ∧ spec_average sim lost found <= 1 + similarity_slack)%Q.
Proof.
  pose proof (sim_range (Item.title lost) (Item.title found)) as [? ?].
  pose proof (sim_range (Item.description lost) (Item.description found)) as [? ?].
  pose proof (sim_range (or_empty (Item.ai_description lost))
                        (or_empty (Item.ai_description found))) as [? ?].
  pose proof (sim_range (or_empty (Item.location lost))
                        (or_empty (Item.location found))) as [? ?].
  rewrite calculate_match_score_comparisons.
  unfold spec_average, spec_comparisons, similarity_slack, rounding_slack in *.
  destruct (both_non_empty (Some (Item.description lost)) (Some (Item.description found))),
    (both_non_empty (Item.ai_description lost) (Item.ai_description found)),
    (both_non_empty (Item.location lost) (Item.location found));
    cbn [app fmap list_fmap weighted_average zip zip_with map py_sum fold_left fst snd
         spec_weighted_sum spec_weight_total foldr];
    (eexists; split; [reflexivity |]);
    unfold float_div, float_mul, float_add;
    concrete (binary64 (3 # 10)); try concrete (binary64 (1 # 10));
    repeat match goal with
      | |- context [binary64 (?x / ?c)] =>
          lazymatch c with context [binary64 _] => concrete c end
      end;
    unfold Qdiv;
    repeat match goal with |- context [Qinv ?c] => concrete (Qinv c) end;
    bound_binary64; unfold binary64_unit in *;
    (split; split; lra).
Qed.

End MatchScoreFacts.

(** C4 (corrected): [calculate_match_score] compares the title always, and
    the description, the machine-generated description and the location only
    when both sides are non-empty; absent comparisons are dropped from the
    numerator and from the weight total, so there is always a comparison.
    The score is a multiple of 1/10000 between 0 and 1, at most
    1/20000 + 10^-12 away from the weighted average of the similarities with
    the weights 0.3, 0.3, 0.3 and 0.1.  It is that average rounded to four
    decimal places unless the average lies within 10^-12 of the midpoint
    between two multiples of 1/10000, where the rounding errors of the floats
    decide; it is exactly 0 when every similarity is 0. *)
Theorem calculate_match_score_weighted_average
    (sim : string → string → Q)
    (sim_range : ∀ a b, (0 <= sim a b ∧ sim a b <= 1 + similarity_slack)%Q)
    (lost found : Item.t) :
  let comparisons := spec_comparisons sim lost found in
  let average := spec_average sim lost found in
  let score := calculate_match_score sim lost found in
  comparisons ≠ []
  ∧ (∃ k : Z, 0 ≤ k ≤ 10000 ∧ score = (inject_Z k / inject_Z 10000)%Q)
  ∧ (Qabs (score - average) <= (1 # 20000) + rounding_slack)%Q
  ∧ ((∀ j : Z, (rounding_slack < Qabs (average - midpoint j))%Q) →
     score = py_round average 4)
  ∧ (0 <= score ∧ score <= 1)%Q
  ∧ (Forall (λ c, c.2 == 0)%Q comparisons → score == 0)%Q.
Proof.
  intros comparisons average score.
  destruct (calculate_match_score_close sim sim_range lost found)
    as (q & Hscore & [Hq1 Hq2] & [Ha1 Ha2]).
  fold average in Hq1, Hq2, Ha1, Ha2. fold score in Hscore.
  unfold rounding_slack, similarity_slack in *.
  destruct (py_round_4_error q) as [Hr1 Hr2]. rewrite <- Hscore in Hr1, Hr2.
  destruct (round_half_even_error (q * inject_Z 10000)) as [He1 He2].
  assert (Hk : 0 ≤ round_half_even (q * inject_Z 10000) ≤ 10000).
  { set (k := round_half_even (q * inject_Z 10000)) in *.
    change (inject_Z 10000) with (10000 # 1)%Q in *.
    assert (Hlo : (inject_Z (-1) < inject_Z k)%Q)
      by (change (inject_Z (-1)) with (- (1))%Q; lra).
    assert (Hhi : (inject_Z k < inject_Z 10001)%Q)
      by (change (inject_Z 10001) with (10001 # 1)%Q; lra).
    rewrite <- Zlt_Qlt in Hlo, Hhi. lia. }
  assert (Hrange : (0 <= score ∧ score <= 1)%Q).
  { rewrite Hscore, py_round_4.
    destruct Hk as [Hk0 Hk1]. rewrite Zle_Qle in Hk0, Hk1.
    change (inject_Z 0) with 0%Q in Hk0. change (inject_Z 10000) with (10000 # 1)%Q in *.
    split; [apply Qle_shift_div_l | apply Qle_shift_div_r]; lra. }
  split; [done |].
  split; [by exists (round_half_even (q * inject_Z 10000)) |].
  split; [apply Qabs_Qle_condition; split; lra |].
  split; [| split; [exact Hrange |]].
  - intros Hties. rewrite Hscore, !py_round_4. do 2 f_equal.
    set (k := round_half_even (average * inject_Z 10000)).
    destruct (round_half_even_error (average * inject_Z 10000)) as [Hk1 Hk2].
    fold k in Hk1, Hk2.
    pose proof (Hties k) as Hup. pose proof (Hties (k - 1)) as Hdown.
    unfold midpoint in Hup, Hdown.
    replace (2 * (k - 1) + 1) with (2 * k - 1) in Hdown by lia.
    unfold Z.sub in Hdown. rewrite !inject_Z_plus, !inject_Z_mult in Hup, Hdown.
    change (inject_Z 2) with 2%Q in *. change (inject_Z 1) with 1%Q in *.
    change (inject_Z (- (1))) with (- (1))%Q in *.
    change (inject_Z 20000) with (20000 # 1)%Q in *.
    change (inject_Z 10000) with (10000 # 1)%Q in *.
    assert (Hu : ((2 * inject_Z k + 1) / (20000 # 1)
                  == (inject_Z k + (1 # 2)) * (1 # 10000))%Q) by field.
    assert (Hd : ((2 * inject_Z k + - (1)) / (20000 # 1)
                  == (inject_Z k - (1 # 2)) * (1 # 10000))%Q) by field.
    rewrite Hu in Hup. rewrite Hd in Hdown.
    apply round_half_even_unique.
    + revert Hdown. apply Qabs_case; intros; lra.
    + revert Hup. apply Qabs_case; intros; lra.
  - intros Hzero. unfold score. rewrite calculate_match_score_comparisons.
    apply weighted_average_zero. apply Forall_fmap.
    eapply Forall_impl; [exact Hzero | done].
Qed.

(** C4, where the claim fails: with a similarity of 3/8 on the titles and of
    1/4 on the locations, and no other comparison, the weighted average is
    0.34375 exactly, which rounded to four decimal places is 0.3438; the
    floats give 0.34374999999999994 and [calculate_match_score] returns
    0.3437. *)
Theorem calculate_match_score_rounds_a_tie_down :
  spec_comparisons tie_similarity tie_lost tie_found
  = [((3 # 10)%Q, (3 # 8)%Q); ((1 # 10)%Q, (1 # 4)%Q)]
  ∧ (spec_average tie_similarity tie_lost tie_found == 34375 # 100000)%Q
  ∧ (py_round (spec_average tie_similarity tie_lost tie_found) 4 == 3438 # 10000)%Q
  ∧ (calculate_match_score tie_similarity tie_lost tie_found == 3437 # 10000)%Q.
Proof.
  split; [reflexivity |].
  split; [by vm_compute |]. split; by vm_compute.
Qed.

(** ** Reading the database after a write *)

Lemma put_session_lookup (id : Z) (s : NegotiationSession.t) (db : DB) :
  negotiation_sessions (put_session id s db) !! id = Some s.
Proof. unfold put_session. simpl. apply lookup_insert_eq. Qed.

Lemma put_session_put_session (id : Z) (s1 s2 : NegotiationSession.t) (db : DB) :
  put_session id s2 (put_session id s1 db) = put_session id s2 db.
Proof. unfold put_session, set_negotiation_sessions. simpl. by rewrite insert_insert_eq. Qed.

Lemma put_session_id (id : Z) (s : NegotiationSession.t) (db : DB) :
  negotiation_sessions db !! id = Some s → put_session id s db = db.
Proof.
  intros H. unfold put_session, set_negotiation_sessions.
  rewrite insert_id by done. by destruct db.
Qed.

Lemma item_status_set_eq (db : DB) (id : Z) (s : ItemStatus) :
  is_Some (items db !! id) → item_status (set_item_status id s db) id = Some s.
Proof.
  intros [it Hit]. unfold item_status, set_item_status. simpl.
  by rewrite lookup_alter_eq, Hit.
Qed.

Lemma item_status_set_ne (db : DB) (id id' : Z) (s : ItemStatus) :
  id ≠ id' → item_status (set_item_status id s db) id' = item_status db id'.
Proof.
  intros Hne. unfold item_status, set_item_status. simpl.
  by rewrite lookup_alter_ne.
Qed.

Lemma item_status_set (db : DB) (id id' : Z) (s : ItemStatus) :
  is_Some (items db !! id') →
  item_status db id' = Some s →
  item_status (set_item_status id s db) id' = Some s.
Proof.
  intros Hsome Hs. destruct (decide (id = id')) as [-> | Hne].
  - by apply item_status_set_eq.
  - by rewrite item_status_set_ne.
Qed.

Lemma set_item_status_is_Some (db : DB) (id id' : Z) (s : ItemStatus) :
  is_Some (items (set_item_status id s db) !! id') ↔ is_Some (items db !! id').
Proof.
  unfold set_item_status. simpl. rewrite lookup_alter.
  case_decide; [subst; by rewrite fmap_is_Some | done].
Qed.

Lemma item_at_Some (db : DB) (ref : option Z) (id : Z) (it : Item.t) :
  item_at db ref = Some (id, it) ↔ ref = Some id ∧ items db !! id = Some it.
Proof.
  unfold item_at. destruct ref as [r|]; simpl.
  - destruct (items db !! r) as [it'|] eqn:Hr; simpl.
    + split; [intros [= <- <-]; done | intros [[= <-] Hit]; congruence].
    + split; [done | intros [[= <-] Hit]; congruence].
  - split; [done | intros [[=] _]].
Qed.

Lemma item_at_set_item_status (db : DB) (ref : option Z) (id id' : Z) (s : ItemStatus)
    (it : Item.t) :
  item_at db ref = Some (id', it) →
  ∃ it', item_at (set_item_status id s db) ref = Some (id', it')
         ∧ Item.owner_id it' = Item.owner_id it.
Proof.
  rewrite item_at_Some. intros [-> Hit].
  unfold item_at, set_item_status. simpl. rewrite lookup_alter.
  case_decide; subst; rewrite Hit; simpl; eauto.
Qed.

Lemma handle_failure_effect (session_id : Z) (session : NegotiationSession.t)
    (reason : option string) (db : DB) (lost_id found_id : Z) (lost found : Item.t) :
  lost_item db session = Some (lost_id, lost) →
  found_item db session = Some (found_id, found) →
  ∃ db',
    handle_failure session_id session reason db = Some db'
    ∧ db' = set_item_status found_id OPEN
              (set_item_status lost_id OPEN
                 (add_failed_match
                    (FailedMatch.mk (NegotiationSession.lost_item_id session)
                       (NegotiationSession.found_item_id session)
                       (Some session_id) reason) db))
    ∧ item_status db' lost_id = Some OPEN
    ∧ item_status db' found_id = Some OPEN.
Proof.
  intros Hlost Hfound. unfold handle_failure.
  unfold lost_item, found_item in *.
  set (db1 := add_failed_match _ db).
  assert (Hl1 : item_at db1 (NegotiationSession.lost_item_id session) = Some (lost_id, lost)) by done.
  assert (Hf1 : item_at db1 (NegotiationSession.found_item_id session) = Some (found_id, found)) by done.
  rewrite Hl1. simpl.
  destruct (item_at_set_item_status db1 _ lost_id found_id OPEN found Hf1) as (found' & Hf2 & _).
  rewrite Hf2. simpl.
  eexists. split; [done |]. split; [done |].
  apply item_at_Some in Hl1 as [_ Hl1]. apply item_at_Some in Hf1 as [_ Hf1].
  split.
  - apply item_status_set.
    + apply set_item_status_is_Some. eauto.
    + apply item_status_set_eq. eauto.
  - apply item_status_set_eq. apply set_item_status_is_Some. eauto.
Qed.

Lemma handle_success_effect (session : NegotiationSession.t) (db : DB)
    (lost_id found_id : Z) (lost found : Item.t) :
  lost_item db session = Some (lost_id, lost) →
  found_item db session = Some (found_id, found) →
  ∃ db',
    handle_success session db = Some db'
    ∧ db' = set_item_status found_id MATCHED (set_item_status lost_id MATCHED db)
    ∧ item_status db' lost_id = Some MATCHED
    ∧ item_status db' found_id = Some MATCHED.
Proof.
  intros Hlost Hfound. unfold handle_success.
  unfold lost_item, found_item in *.
  rewrite Hlost. simpl.
  destruct (item_at_set_item_status db _ lost_id found_id MATCHED found Hfound) as (found' & Hf2 & _).
  rewrite Hf2. simpl.
  eexists. split; [done |]. split; [done |].
  apply item_at_Some in Hlost as [_ Hl1]. apply item_at_Some in Hfound as [_ Hf1].
  split.
  - apply item_status_set.
    + apply set_item_status_is_Some. eauto.
    + apply item_status_set_eq. eauto.
  - apply item_status_set_eq. apply set_item_status_is_Some. eauto.
Qed.

(** ** Candidates and failed pairs *)

Lemma sql_notin_true (x : Z) (l : list (option Z)) :
  sql_notin x l = true → Some x ∉ l.
Proof.
  unfold sql_notin. rewrite forallb_forall.
  intros Hall Hin%list_elem_of_In. specialize (Hall _ Hin). simpl in Hall.
  rewrite Z.eqb_refl in Hall. done.
Qed.

Lemma sql_eq_true (a b : option Z) :
  sql_eq a b = true ↔ ∃ x, a = Some x ∧ b = Some x.
Proof.
  destruct a as [a|], b as [b|]; simpl.
  - rewrite Z.eqb_eq. split; [intros ->; eauto | intros (x & [= ->] & [= ->]); done].
  - split; [done | intros (x & _ & [=])].
  - split; [done | intros (x & [=] & _)].
  - split; [done | intros (x & [=] & _)].
Qed.

Lemma elem_of_insert_desc (x y : Match.t) (l : list Match.t) :
  y ∈ insert_desc x l ↔ y = x ∨ y ∈ l.
Proof.
  induction l as [|z l IH]; simpl.
  - rewrite list_elem_of_singleton, elem_of_nil. tauto.
  - case_match; rewrite !elem_of_cons; [done |]. rewrite IH. tauto.
Qed.

Lemma elem_of_sort_desc (y : Match.t) (l : list Match.t) :
  y ∈ sort_desc l ↔ y ∈ l.
Proof.
  unfold sort_desc. induction l as [|x l IH]; simpl; [done |].
  by rewrite elem_of_insert_desc, elem_of_cons, IH.
Qed.

Lemma elem_of_slice_to {A} (x : A) (l : list A) (limit : Z) :
  x ∈ slice_to l limit → x ∈ l.
Proof. unfold slice_to. case_match; apply subseteq_take. Qed.

Section FindMatchesFacts.

Variable sim : string → string → Q.

Lemma elem_of_failed_ids (db : DB) (lost_id : Z) (x : option Z) :
  x ∈ failed_ids db lost_id ↔
  ∃ f, f ∈ failed_matches db ∧ FailedMatch.lost_item_id f = Some lost_id
       ∧ FailedMatch.found_item_id f = x.
Proof.
  unfold failed_ids. rewrite list_elem_of_fmap. split.
  - intros (f & -> & Hf). apply list_elem_of_filter in Hf as [Heq Hf].
    apply sql_eq_true in Heq as (y & Hy & [= <-]). eauto.
  - intros (f & Hf & Hl & <-). exists f. split; [done |].
    apply list_elem_of_filter. split; [| done].
    rewrite Hl. simpl. apply Z.eqb_refl.
Qed.

Lemma find_matches_found_items (db : DB) (lost_id : Z) (lost : Item.t) (limit : Z)
    (m : Match.t) :
  m ∈ find_matches sim db lost_id lost limit →
  (Match.item_id m, Match.item m) ∈ found_items db lost_id lost
  ∧ Match.score m = calculate_match_score sim lost (Match.item m)
  ∧ Qle_bool MIN_MATCH_SCORE (Match.score m) = true.
Proof.
  unfold find_matches. intros Hm.
  apply elem_of_slice_to, elem_of_sort_desc, list_elem_of_omap in Hm
    as ([id it] & Hin & Hsome).
  simpl in Hsome. case_match eqn:Hle; [| done].
  injection Hsome as <-. done.
Qed.

Lemma found_items_not_failed (db : DB) (lost_id : Z) (lost : Item.t) (r : Z * Item.t) :
  r ∈ found_items db lost_id lost → Some r.1 ∉ failed_ids db lost_id.
Proof.
  unfold found_items. intros Hr. apply list_elem_of_filter in Hr as [Hp _].
  apply andb_prop in Hp as [_ Hp].
  destruct (failed_ids db lost_id) as [|y l] eqn:Hl; [apply not_elem_of_nil |].
  by apply sql_notin_true.
Qed.


End FindMatchesFacts.


(** ** The negotiation turn loop *)

Section NegotiationFacts.

Variable LLM : Type.
Variable generate_response :
  LLM → SystemPrompt.t → list (string * option string) → Decision.t * LLM.

Lemma decide_some (a : Agent.t) (llm : LLM) :
  is_Some (Agent.item_knowledge a) →
  is_Some (BaseAgent.decide LLM generate_response a llm).
Proof.
  intros [item Hitem]. unfold BaseAgent.decide, BaseAgent._build_system_prompt.
  rewrite Hitem. simpl. eauto.
Qed.

Lemma negotiation_loop_protocol (session_id : Z) (rounds : list nat) :
  ∀ (session : NegotiationSession.t) (seeker finder : Agent.t) (llm : LLM) (db : DB),
    is_Some (Agent.item_knowledge seeker) →
    is_Some (Agent.item_knowledge finder) →
    ∃ result llm' status turns,
      negotiation_loop LLM generate_response rounds session_id session seeker finder llm db
      = (Returned result, llm',
         put_session session_id
           (NegotiationSession.set_completed_at
              (NegotiationSession.set_status status
                 (NegotiationSession.set_chat_log
                    (NegotiationSession.chat_log session ++ turns) session))) db)
      ∧ protocol rounds turns result status.
Proof.
  induction rounds as [|round_num rounds IH]; intros session seeker finder llm db Hs Hf.
  - exists (ResultStatus "MAX_ROUNDS" MAX_NEGOTIATION_ROUNDS), llm,
      NegotiationStatus.FAILED, []. split; [| constructor].
    simpl. rewrite app_nil_r. by destruct session.
  - cbn [negotiation_loop].
    set (current_agent := if bool_decide _ then seeker else finder).
    assert (Hcur : is_Some (Agent.item_knowledge current_agent)).
    { unfold current_agent. by case_bool_decide. }
    destruct (decide_some current_agent llm Hcur) as [[decision llm1] Hdec].
    rewrite Hdec.
    set (message := (BaseAgent.execute current_agent decision).1).
    case_bool_decide as Hagree; [| case_bool_decide as Hreject].
    + eexists _, llm1, _, [message]. split; [| by apply protocol_agree].
      by rewrite put_session_put_session.
    + eexists _, llm1, _, [message]. split; [| by apply protocol_reject].
      by rewrite put_session_put_session.
    + edestruct (IH (NegotiationSession.set_chat_log
                       (NegotiationSession.chat_log session ++ [message]) session)
                    (Agent.set_memory (NegotiationSession.chat_log session ++ [message]) seeker)
                    (Agent.set_memory (NegotiationSession.chat_log session ++ [message]) finder)
                    llm1
                    (put_session session_id
                       (NegotiationSession.set_chat_log
                          (NegotiationSession.chat_log session ++ [message]) session) db))
        as (result & llm' & status & turns & Heq & Hprot); [done | done |].
      exists result, llm', status, (message :: turns).
      split; [| by apply protocol_continue].
      rewrite Heq, put_session_put_session. simpl.
      by rewrite <- app_assoc.
Qed.

Lemma hydrate_items (db : DB) (session : NegotiationSession.t) :
  is_Some (lost_item db session) → is_Some (found_item db session) →
  is_Some (Agent.item_knowledge (_hydrate_agents db session).1)
  ∧ is_Some (Agent.item_knowledge (_hydrate_agents db session).2).
Proof.
  intros [l Hl] [f Hf]. unfold _hydrate_agents. rewrite Hl, Hf. simpl. eauto.
Qed.

Lemma run_full_negotiation_protocol (session_id : Z) (llm : LLM) (db : DB)
    (session : NegotiationSession.t) :
  negotiation_sessions db !! session_id = Some session →
  NegotiationSession.status session = NegotiationStatus.ACTIVE →
  is_Some (lost_item db session) →
  is_Some (found_item db session) →
  ∃ result llm' status turns,
    run_full_negotiation LLM generate_response session_id llm db
    = (Returned result, llm',
       put_session session_id
         (NegotiationSession.set_completed_at
            (NegotiationSession.set_status status
               (NegotiationSession.set_chat_log
                  (NegotiationSession.chat_log session ++ turns) session))) db)
    ∧ protocol (seq 0 MAX_NEGOTIATION_ROUNDS) turns result status.
Proof.
  intros Hsession Hactive Hlost Hfound.
  unfold run_full_negotiation. rewrite Hsession.
  rewrite bool_decide_eq_false_2 by (rewrite Hactive; auto).
  destruct (hydrate_items db session Hlost Hfound) as [Hs Hf].
  destruct (_hydrate_agents db session) as [seeker finder]. simpl in Hs, Hf.
  by apply negotiation_loop_protocol.
Qed.

Lemma negotiation_loop_turn (round_num : nat) (rounds : list nat) (session_id : Z)
    (session : NegotiationSession.t) (seeker finder : Agent.t) (llm llm1 : LLM) (db : DB)
    (decision : Decision.t) :
  let current_agent :=
    if bool_decide (Message.sender <$> last (NegotiationSession.chat_log session)
                    ≠ Some "Seeker"%string)
    then seeker else finder in
  let message :=
    Message.mk (Agent.role current_agent) (Decision.content decision)
               (Decision.action decision) in
  let session1 :=
    NegotiationSession.set_chat_log (NegotiationSession.chat_log session ++ [message])
                                    session in
  BaseAgent.decide LLM generate_response current_agent llm = Some (decision, llm1) →
  negotiation_loop LLM generate_response (round_num :: rounds) session_id session
                   seeker finder llm db
  = if bool_decide (Decision.action decision = Some "AGREE"%string) then
      (Returned (ResultStatus "SUCCESS" (round_num + 1)), llm1,
       put_session session_id
         (NegotiationSession.set_completed_at
            (NegotiationSession.set_status NegotiationStatus.PENDING_CONFIRM session1)) db)
    else if bool_decide (Decision.action decision = Some "REJECT"%string) then
      (Returned (ResultStatus "FAILED" (round_num + 1)), llm1,
       put_session session_id
         (NegotiationSession.set_completed_at
            (NegotiationSession.set_status NegotiationStatus.FAILED session1)) db)
    else
      negotiation_loop LLM generate_response rounds session_id session1
        (Agent.set_memory (NegotiationSession.chat_log session1) seeker)
        (Agent.set_memory (NegotiationSession.chat_log session1) finder)
        llm1 (put_session session_id session1 db).
Proof.
  intros current_agent message session1 Hdecide.
  cbn [negotiation_loop]. fold current_agent. rewrite Hdecide.
  cbn [BaseAgent.execute fst Message.action_type].
  fold message. fold session1.
  repeat case_bool_decide; by rewrite ?put_session_put_session.
Qed.

(** The agent whose turn it is decides what the language model answers. *)
Lemma decide_answer (lost found : Item.t) (log : list Message.t)
    (seeker finder : Agent.t) (llm : LLM) :
  hydrated lost found log seeker finder →
  let current_agent :=
    if bool_decide (Message.sender <$> last log ≠ Some "Seeker"%string)
    then seeker else finder in
  ∃ decision llm1,
    BaseAgent.decide LLM generate_response current_agent llm = Some (decision, llm1)
    ∧ answer LLM generate_response lost found log llm
      = (Message.mk (Agent.role current_agent) (Decision.content decision)
                    (Decision.action decision), llm1).
Proof.
  intros (Hsi & Hsr & Hsm & Hfi & Hfr & Hfm) current_agent.
  unfold current_agent, answer, next_speaker, BaseAgent.decide,
    BaseAgent._build_system_prompt.
  destruct (decide (Message.sender <$> last log = Some "Seeker"%string)) as [Heq | Hne].
  - rewrite bool_decide_eq_false_2 by auto. rewrite bool_decide_eq_true_2 by done.
    rewrite Hfi, Hfr, Hfm. cbn [mbind option_bind String.eqb Ascii.eqb].
    destruct (generate_response llm _ _) as [decision llm1]. eauto.
  - rewrite bool_decide_eq_true_2 by done. rewrite bool_decide_eq_false_2 by done.
    rewrite Hsi, Hsr, Hsm. cbn [mbind option_bind].
    destruct (generate_response llm _ _) as [decision llm1]. eauto.
Qed.

Lemma negotiation_loop_answers (session_id : Z) (lost found : Item.t) (rounds : list nat) :
  ∀ (session : NegotiationSession.t) (seeker finder : Agent.t) (llm : LLM) (db : DB),
    hydrated lost found (NegotiationSession.chat_log session) seeker finder →
    ∃ result llm' status turns,
      negotiation_loop LLM generate_response rounds session_id session seeker finder llm db
      = (Returned result, llm',
         put_session session_id
           (NegotiationSession.set_completed_at
              (NegotiationSession.set_status status
                 (NegotiationSession.set_chat_log
                    (NegotiationSession.chat_log session ++ turns) session))) db)
      ∧ protocol rounds turns result status
      ∧ answers LLM generate_response lost found (NegotiationSession.chat_log session)
                llm turns llm'.
Proof.
  induction rounds as [|round_num rounds IH]; intros session seeker finder llm db Hh.
  - exists (ResultStatus "MAX_ROUNDS" MAX_NEGOTIATION_ROUNDS), llm,
      NegotiationStatus.FAILED, []. split; [| split; constructor].
    simpl. rewrite app_nil_r. by destruct session.
  - destruct (decide_answer lost found _ seeker finder llm Hh)
      as (decision & llm1 & Hdecide & Hanswer).
    rewrite (negotiation_loop_turn round_num rounds session_id session seeker finder
               llm llm1 db decision Hdecide).
    set (current_agent := if bool_decide _ then seeker else finder) in *.
    set (message := Message.mk _ _ _) in *.
    case_bool_decide as Hagree; [| case_bool_decide as Hreject].
    + eexists _, llm1, _, [message].
      split; [reflexivity |]. split; [by apply protocol_agree |].
      eapply answers_turn; [exact Hanswer | constructor].
    + eexists _, llm1, _, [message].
      split; [reflexivity |]. split; [by apply protocol_reject |].
      eapply answers_turn; [exact Hanswer | constructor].
    + set (session1 := NegotiationSession.set_chat_log _ session).
      destruct (IH session1
                   (Agent.set_memory (NegotiationSession.chat_log session1) seeker)
                   (Agent.set_memory (NegotiationSession.chat_log session1) finder)
                   llm1 (put_session session_id session1 db))
        as (result & llm' & status & turns & Heq & Hprot & Hans).
      { destruct Hh as (? & ? & ? & ? & ? & ?). by repeat split. }
      exists result, llm', status, (message :: turns).
      split; [| split; [by apply protocol_continue |]].
      * rewrite Heq, put_session_put_session. simpl. by rewrite <- app_assoc.
      * eapply answers_turn; [exact Hanswer | exact Hans].
Qed.

Lemma run_full_negotiation_answers (session_id : Z) (llm : LLM) (db : DB)
    (session : NegotiationSession.t) (lost_id found_id : Z) (lost found : Item.t) :
  negotiation_sessions db !! session_id = Some session →
  NegotiationSession.status session = NegotiationStatus.ACTIVE →
  lost_item db session = Some (lost_id, lost) →
  found_item db session = Some (found_id, found) →
  ∃ result llm' status turns,
    run_full_negotiation LLM generate_response session_id llm db
    = (Returned result, llm',
       put_session session_id
         (NegotiationSession.set_completed_at
            (NegotiationSession.set_status status
               (NegotiationSession.set_chat_log
                  (NegotiationSession.chat_log session ++ turns) session))) db)
    ∧ protocol (seq 0 MAX_NEGOTIATION_ROUNDS) turns result status
    ∧ answers LLM generate_response lost found (NegotiationSession.chat_log session)
              llm turns llm'.
Proof.
  intros Hsession Hactive Hlost Hfound.
  unfold run_full_negotiation. rewrite Hsession.
  rewrite bool_decide_eq_false_2 by (rewrite Hactive; auto).
  unfold _hydrate_agents. rewrite Hlost, Hfound.
  apply negotiation_loop_answers. by repeat split.
Qed.

End NegotiationFacts.

Lemma protocol_status (rounds : list nat) (turns : list Message.t)
    (result : NegotiationResult) (status : NegotiationStatus.t) :
  protocol rounds turns result status →
  (length turns ≤ length rounds)%nat
  ∧ (status = NegotiationStatus.PENDING_CONFIRM ↔ Exists (carries "AGREE") turns)
  ∧ (Exists (carries "REJECT") turns → status = NegotiationStatus.FAILED)
  ∧ (¬ Exists (carries "AGREE") turns → ¬ Exists (carries "REJECT") turns →
     status = NegotiationStatus.FAILED ∧ length turns = length rounds)
  ∧ (∀ i m, turns !! i = Some m → (S i < length turns)%nat →
     ¬ carries "AGREE" m ∧ ¬ carries "REJECT" m).
Proof.
  induction 1 as [|r rs m Hm|r rs m Hm|r rs m turns result status Ha Hr _ IH].
  - split; [done |]. split; [| split; [| split]].
    + split; [done | intros H; inversion H].
    + done.
    + done.
    + intros i m Hlook. done.
  - split; [simpl; lia |]. split; [| split; [| split]].
    + split; [intros _; by apply Exists_cons_hd | done].
    + intros H. apply Exists_cons in H as [H | H]; [| inversion H].
      unfold carries in *. congruence.
    + intros Hn. destruct Hn. by apply Exists_cons_hd.
    + intros i m' Hlook Hlt. simpl in Hlt. lia.
  - assert (Hna : ¬ carries "AGREE" m) by (unfold carries in *; congruence).
    split; [simpl; lia |]. split; [| split; [| split]].
    + split; [done |]. intros H. apply Exists_cons in H as [H | H]; [done | inversion H].
    + done.
    + intros _ Hn. destruct Hn. by apply Exists_cons_hd.
    + intros i m' Hlook Hlt. simpl in Hlt. lia.
  - destruct IH as (Hlen & Hagree & Hreject & Hnone & Hmid).
    split; [simpl; lia |]. split; [| split; [| split]].
    + rewrite Hagree, Exists_cons. tauto.
    + rewrite Exists_cons. intros [H | H]; [done | auto].
    + rewrite !Exists_cons. intros Hna Hnr.
      destruct Hnone as [-> Hl]; [tauto | tauto |]. simpl. by rewrite Hl.
    + intros [|i] m' Hlook Hlt; simpl in *.
      * by injection Hlook as <-.
      * apply (Hmid i); [done | lia].
Qed.

Lemma protocol_rounds (k n : nat) (turns : list Message.t)
    (status_text : string) (r : nat) (status : NegotiationStatus.t) :
  (k + n = MAX_NEGOTIATION_ROUNDS)%nat →
  protocol (seq k n) turns (ResultStatus status_text r) status →
  r = (k + length turns)%nat.
Proof.
  intros Hkn Hp. remember (seq k n) as rounds eqn:Hrounds.
  remember (ResultStatus status_text r) as result eqn:Hres.
  revert k n Hkn Hrounds Hres.
  induction Hp as [|r0 rs m Hm|r0 rs m Hm|r0 rs m turns result status Ha Hr Hp IH];
    intros k n Hkn Hrounds Hres.
  - destruct n; [| done]. injection Hres as _ <-. simpl. lia.
  - destruct n; [done |]. injection Hrounds as -> _. injection Hres as _ <-. simpl. lia.
  - destruct n; [done |]. injection Hrounds as -> _. injection Hres as _ <-. simpl. lia.
  - destruct n; [done |]. injection Hrounds as -> ->.
    rewrite (IH (S k) n); [simpl; lia | lia | done | done].
Qed.

Lemma protocol_result (rounds : list nat) (turns : list Message.t)
    (result : NegotiationResult) (status : NegotiationStatus.t) :
  protocol rounds turns result status → ∃ status_text r, result = ResultStatus status_text r.
Proof. induction 1; eauto. Qed.

Lemma protocol_outcome (rounds : list nat) (turns : list Message.t)
    (result : NegotiationResult) (status : NegotiationStatus.t) :
  protocol rounds turns result status →
  (result_status result = Some "SUCCESS"%string
   ∧ status = NegotiationStatus.PENDING_CONFIRM)
  ∨ (result_status result ≠ Some "SUCCESS"%string
     ∧ status = NegotiationStatus.FAILED).
Proof. induction 1; [by right | by left | by right | done]. Qed.

(** C6: on an ACTIVE session whose two items are in the table,
    [run_full_negotiation] returns after at most [MAX_NEGOTIATION_ROUNDS] = 20
    turns.  The turns it has appended to the transcript are the answers of the
    language model, asked in turn for the seeker and for the finder: each
    turn carries the action the model decided on.  The session ends
    PENDING_CONFIRM exactly when one of these turns carries AGREE, FAILED when
    one carries REJECT, and FAILED after all 20 rounds when none carries
    either; every turn but the last carries another action, after which the
    dialogue went on. *)
Theorem run_full_negotiation_terminates
    (LLM : Type)
    (generate_response :
       LLM → SystemPrompt.t → list (string * option string) → Decision.t * LLM)
    (session_id : Z) (llm : LLM) (db : DB) (session : NegotiationSession.t)
    (lost_id found_id : Z) (lost found : Item.t) :
  negotiation_sessions db !! session_id = Some session →
  NegotiationSession.status session = NegotiationStatus.ACTIVE →
  lost_item db session = Some (lost_id, lost) →
  found_item db session = Some (found_id, found) →
  ∃ status_text rounds llm' session' turns,
    run_full_negotiation LLM generate_response session_id llm db
    = (Returned (ResultStatus status_text rounds), llm', put_session session_id session' db)
    ∧ NegotiationSession.chat_log session' = NegotiationSession.chat_log session ++ turns
    ∧ answers LLM generate_response lost found (NegotiationSession.chat_log session)
              llm turns llm'
    ∧ length turns = rounds
    ∧ (rounds ≤ MAX_NEGOTIATION_ROUNDS)%nat
    ∧ MAX_NEGOTIATION_ROUNDS = 20%nat
    ∧ (NegotiationSession.status session' = NegotiationStatus.PENDING_CONFIRM
       ↔ Exists (carries "AGREE") turns)
    ∧ (Exists (carries "REJECT") turns →
       NegotiationSession.status session' = NegotiationStatus.FAILED)
    ∧ (¬ Exists (carries "AGREE") turns → ¬ Exists (carries "REJECT") turns →
       NegotiationSession.status session' = NegotiationStatus.FAILED
       ∧ rounds = MAX_NEGOTIATION_ROUNDS)
    ∧ (∀ i m, turns !! i = Some m → (S i < rounds)%nat →
       ¬ carries "AGREE" m ∧ ¬ carries "REJECT" m).
Proof.
  intros Hsession Hactive Hlost Hfound.
  destruct (run_full_negotiation_answers LLM generate_response session_id llm db session
              lost_id found_id lost found Hsession Hactive Hlost Hfound)
    as (result & llm' & status & turns & Heq & Hp & Hanswers).
  destruct (protocol_result _ _ _ _ Hp) as (status_text & r & ->).
  pose proof (protocol_rounds 0 _ _ _ _ _ eq_refl Hp) as Hr. simpl in Hr.
  destruct (protocol_status _ _ _ _ Hp) as (Hlen & Hagree & Hreject & Hnone & Hmid).
  rewrite length_seq in Hlen, Hnone.
  eexists status_text, r, llm', _, turns.
  split; [exact Heq |]. simpl. subst r.
  split; [done |]. split; [done |]. split; [done |]. split; [done |].
  split; [done |]. split; [done |]. split; [done |]. split; [done |].
  intros i m Hlook Hlt. by apply (Hmid i).
Qed.

(** ** Alternation *)

Lemma next_speaker_differs (prev : string) :
  next_speaker (Some prev) ≠ prev
  ∧ (next_speaker (Some prev) = "Seeker"%string ∨ next_speaker (Some prev) = "Finder"%string).
Proof.
  unfold next_speaker. case_bool_decide as H.
  - injection H as ->. split; [done | by right].
  - split; [| by left]. intros Heq. apply H. by rewrite <- Heq.
Qed.

Lemma alternates_lookup (turns : list Message.t) :
  ∀ (init : list Message.t),
    alternates (Message.sender <$> last init) turns →
    ∀ i prev m,
      (init ++ turns) !! i = Some prev →
      (init ++ turns) !! S i = Some m →
      (length init ≤ S i)%nat →
      Message.sender m = next_speaker (Some (Message.sender prev)).
Proof.
  induction turns as [|t turns IH]; intros init Halt i prev m Hprev Hm Hlen.
  - rewrite app_nil_r in Hm. apply lookup_lt_Some in Hm. lia.
  - destruct Halt as [Ht Halt].
    destruct (decide (S i = length init)) as [Heq | Hne].
    + rewrite lookup_app_r in Hm by lia.
      replace (S i - length init)%nat with 0%nat in Hm by lia.
      injection Hm as <-.
      rewrite lookup_app_l in Hprev by lia.
      rewrite last_lookup, <- Heq in Ht. simpl in Ht.
      by rewrite Hprev in Ht.
    + rewrite (cons_middle t init turns), app_assoc in Hprev, Hm.
      apply (IH (init ++ [t])) with (i := i); [| done | done |].
      * by rewrite last_snoc.
      * rewrite length_app. simpl. lia.
Qed.

Section AlternationFacts.

Variable LLM : Type.
Variable generate_response :
  LLM → SystemPrompt.t → list (string * option string) → Decision.t * LLM.

Lemma negotiation_loop_alternates (session_id : Z) (rounds : list nat) :
  ∀ (session : NegotiationSession.t) (seeker finder : Agent.t) (llm : LLM) (db : DB),
    Agent.role seeker = "Seeker"%string →
    Agent.role finder = "Finder"%string →
    negotiation_sessions db !! session_id = Some session →
    ∃ session' turns,
      negotiation_sessions
        (negotiation_loop LLM generate_response rounds session_id session
                          seeker finder llm db).2 !! session_id = Some session'
      ∧ NegotiationSession.chat_log session' = NegotiationSession.chat_log session ++ turns
      ∧ alternates (Message.sender <$> last (NegotiationSession.chat_log session)) turns.
Proof.
  induction rounds as [|round_num rounds IH];
    intros session seeker finder llm db Hs Hf Hdb.
  - eexists _, []. simpl. rewrite lookup_insert_eq.
    split; [done |]. by rewrite app_nil_r.
  - cbn [negotiation_loop].
    set (last_sender := Message.sender <$> last (NegotiationSession.chat_log session)).
    set (current_agent := if bool_decide _ then seeker else finder).
    assert (Hrole : Agent.role current_agent = next_speaker last_sender).
    { unfold current_agent, next_speaker.
      repeat case_bool_decide; done. }
    destruct (BaseAgent.decide LLM generate_response current_agent llm) as [[decision llm1]|].
    2:{ exists session, []. simpl. by rewrite app_nil_r. }
    set (message := (BaseAgent.execute current_agent decision).1).
    assert (Hsender : Message.sender message = next_speaker last_sender) by done.
    case_bool_decide as Hagree; [| case_bool_decide as Hreject].
    + eexists _, [message]. simpl. rewrite lookup_insert_eq. done.
    + eexists _, [message]. simpl. rewrite lookup_insert_eq. done.
    + edestruct (IH (NegotiationSession.set_chat_log
                       (NegotiationSession.chat_log session ++ [message]) session)
                    (Agent.set_memory (NegotiationSession.chat_log session ++ [message]) seeker)
                    (Agent.set_memory (NegotiationSession.chat_log session ++ [message]) finder)
                    llm1
                    (put_session session_id
                       (NegotiationSession.set_chat_log
                          (NegotiationSession.chat_log session ++ [message]) session) db))
        as (session' & turns & Hlook & Hlog & Halt);
        [done | done | apply put_session_lookup |].
      exists session', (message :: turns).
      split; [exact Hlook |]. split.
      * rewrite Hlog. simpl. by rewrite <- app_assoc.
      * simpl in Halt. rewrite last_snoc in Halt. done.
Qed.

End AlternationFacts.

(** C7: in the transcript [run_full_negotiation] leaves in the session, also
    when it stops on an error, the Seeker sends the first turn if the
    transcript started empty, and every turn it appended is sent by the agent
    that did not send the turn just before it: Finder after Seeker, Seeker
    after anybody else, never the same role twice in a row. *)
Theorem negotiation_turns_alternate
    (LLM : Type)
    (generate_response :
       LLM → SystemPrompt.t → list (string * option string) → Decision.t * LLM)
    (session_id : Z) (llm : LLM) (db : DB) (session : NegotiationSession.t) :
  negotiation_sessions db !! session_id = Some session →
  ∃ session' turns,
    negotiation_sessions
      (run_full_negotiation LLM generate_response session_id llm db).2 !! session_id
    = Some session'
    ∧ NegotiationSession.chat_log session' = NegotiationSession.chat_log session ++ turns
    ∧ (NegotiationSession.chat_log session = [] →
       ∀ m, turns !! 0%nat = Some m → Message.sender m = "Seeker"%string)
    ∧ (∀ i prev m,
         NegotiationSession.chat_log session' !! i = Some prev →
         NegotiationSession.chat_log session' !! S i = Some m →
         (length (NegotiationSession.chat_log session) ≤ S i)%nat →
         Message.sender m ≠ Message.sender prev
         ∧ (Message.sender m = "Seeker"%string ∨ Message.sender m = "Finder"%string)
         ∧ (Message.sender prev = "Seeker"%string → Message.sender m = "Finder"%string)).
Proof.
  intros Hsession.
  assert (∃ session' turns,
    negotiation_sessions
      (run_full_negotiation LLM generate_response session_id llm db).2 !! session_id
    = Some session'
    ∧ NegotiationSession.chat_log session' = NegotiationSession.chat_log session ++ turns
    ∧ alternates (Message.sender <$> last (NegotiationSession.chat_log session)) turns)
    as (session' & turns & Hlook & Hlog & Halt).
  { unfold run_full_negotiation. rewrite Hsession.
    case_bool_decide.
    - exists session, []. simpl. by rewrite app_nil_r.
    - unfold _hydrate_agents. by apply negotiation_loop_alternates. }
  exists session', turns. split; [done |]. split; [done |]. split.
  - intros Hempty m Hm. rewrite Hempty in Halt.
    destruct turns as [|t turns]; [done |]. injection Hm as <-.
    by destruct Halt as [-> _].
  - intros i prev m Hprev Hm Hlen. rewrite Hlog in Hprev, Hm.
    rewrite (alternates_lookup turns _ Halt i prev m Hprev Hm Hlen).
    destruct (next_speaker_differs (Message.sender prev)) as [Hne Hor].
    split; [done |]. split; [done |].
    intros ->. done.
Qed.

(** ** One candidate of the auto-matching loop *)

(** C8: trying one candidate opens a session on the pair and negotiates; when
    the negotiation ends FAILED (a REJECT or the round budget), a FailedMatch
    row for exactly this lost and found item (and this session) is written
    and both items are OPEN again; when it ends PENDING_CONFIRM no row is
    written and both items stay NEGOTIATING. *)
Theorem failed_negotiation_releases_items
    (LLM : Type)
    (generate_response :
       LLM → SystemPrompt.t → list (string * option string) → Decision.t * LLM)
    (lost_id : Z) (lost : Item.t) (m : Match.t) (llm : LLM) (db : DB) :
  is_Some (items db !! lost_id) →
  is_Some (items db !! Match.item_id m) →
  ∃ r llm' db' session,
    try_match LLM generate_response lost_id lost m llm db = (Returned r, llm', db')
    ∧ negotiation_sessions db' !! next_id (negotiation_sessions db) = Some session
    ∧ NegotiationSession.lost_item_id session = Some lost_id
    ∧ NegotiationSession.found_item_id session = Some (Match.item_id m)
    ∧ (NegotiationSession.status session = NegotiationStatus.FAILED
       ∨ NegotiationSession.status session = NegotiationStatus.PENDING_CONFIRM)
    ∧ (NegotiationSession.status session = NegotiationStatus.FAILED →
       r = inr ()
       ∧ (∃ f, f ∈ failed_matches db'
               ∧ FailedMatch.lost_item_id f = Some lost_id
               ∧ FailedMatch.found_item_id f = Some (Match.item_id m)
               ∧ FailedMatch.session_id f = Some (next_id (negotiation_sessions db)))
       ∧ item_status db' lost_id = Some OPEN
       ∧ item_status db' (Match.item_id m) = Some OPEN)
    ∧ (NegotiationSession.status session = NegotiationStatus.PENDING_CONFIRM →
       r = inl ()
       ∧ failed_matches db' = failed_matches db
       ∧ item_status db' lost_id = Some NEGOTIATING
       ∧ item_status db' (Match.item_id m) = Some NEGOTIATING).
Proof.
  intros Hlost Hfound.
  unfold try_match, create_session.
  set (found_id := Match.item_id m) in *.
  set (db0 := set_item_status found_id NEGOTIATING (set_item_status lost_id NEGOTIATING db)).
  set (session_id := next_id (negotiation_sessions db0)).
  set (session0 := NegotiationSession.mk _ _ _ _ _ _ _ _).
  set (db1 := put_session session_id session0 db0).
  assert (Hsid : session_id = next_id (negotiation_sessions db)) by done.
  assert (Hl0 : is_Some (items db0 !! lost_id)).
  { unfold db0. by rewrite !set_item_status_is_Some. }
  assert (Hf0 : is_Some (items db0 !! found_id)).
  { unfold db0. by rewrite !set_item_status_is_Some. }
  assert (Hsl0 : item_status db0 lost_id = Some NEGOTIATING).
  { unfold db0. apply item_status_set.
    - by rewrite set_item_status_is_Some.
    - by apply item_status_set_eq. }
  assert (Hsf0 : item_status db0 found_id = Some NEGOTIATING).
  { unfold db0. apply item_status_set_eq. by rewrite set_item_status_is_Some. }
  destruct Hl0 as [lost0 Hl0]. destruct Hf0 as [found0 Hf0].
  assert (Hlost1 : lost_item db1 session0 = Some (lost_id, lost0)).
  { apply item_at_Some. done. }
  assert (Hfound1 : found_item db1 session0 = Some (found_id, found0)).
  { apply item_at_Some. done. }
  destruct (run_full_negotiation_protocol LLM generate_response session_id llm db1 session0)
    as (result & llm' & status & turns & Hrun & Hp);
    [apply put_session_lookup | done | by rewrite Hlost1 | by rewrite Hfound1 |].
  rewrite Hrun.
  set (session1 := NegotiationSession.set_completed_at _).
  set (db2 := put_session session_id session1 db1).
  destruct (protocol_outcome _ _ _ _ Hp) as [[Hres Hst] | [Hres Hst]].
  - rewrite bool_decide_eq_true_2 by done.
    eexists _, llm', _, session1. split; [reflexivity |].
    split; [rewrite <- Hsid; apply (put_session_lookup session_id session1 db1) |].
    split; [done |]. split; [done |].
    split; [right; by subst status |].
    split; [subst status; done |]. intros _. done.
  - rewrite bool_decide_eq_false_2 by done.
    unfold db2 at 1. rewrite put_session_lookup.
    destruct (handle_failure_effect session_id session1 (result_status result) db2
                lost_id found_id lost0 found0)
      as (db3 & Hhf & Hdb3 & Hl3 & Hf3); [by apply item_at_Some | by apply item_at_Some |].
    rewrite Hhf.
    eexists _, llm', db3, session1. split; [reflexivity |].
    split; [rewrite Hdb3, <- Hsid; apply (put_session_lookup session_id session1 db1) |].
    split; [done |]. split; [done |].
    split; [left; by subst status |].
    split; [| subst status; done]. intros _.
    split; [done |]. split; [| done].
    exists (FailedMatch.mk (Some lost_id) (Some found_id) (Some session_id)
              (result_status result)).
    split; [| done].
    rewrite Hdb3. simpl. apply elem_of_app. right. by apply list_elem_of_singleton.
Qed.

(** ** Human confirmation *)

Lemma other_party_confirmed_flag (db : DB) (session : NegotiationSession.t) (user_id : Z) :
  other_party_confirmed db session user_id = flag_truthy (other_flag db session user_id).
Proof.
  unfold other_party_confirmed, other_flag.
  by destruct (owned_by (lost_item db session) user_id).
Qed.

(** What an answer "mine" does: the caller's flag is written, and the session
    is CONFIRMED and the items MATCHED when the other party's flag is true
    already. *)
Lemma confirm_item_mine (session_id user_id : Z) (db : DB) (session : NegotiationSession.t)
    (lost_id found_id : Z) (lost found : Item.t) :
  negotiation_sessions db !! session_id = Some session →
  lost_item db session = Some (lost_id, lost) →
  found_item db session = Some (found_id, found) →
  is_party db session user_id = true →
  ∃ session1,
    session1
    = (if owned_by (lost_item db session) user_id
       then NegotiationSession.set_seeker_confirmed (Some true) session
       else NegotiationSession.set_finder_confirmed (Some true) session)
    ∧ own_flag db session1 user_id = Some true
    ∧ other_flag db session1 user_id = other_flag db session user_id
    ∧ confirm_item session_id true user_id db
      = Ok (if other_party_confirmed db session user_id
            then set_item_status found_id MATCHED
                   (set_item_status lost_id MATCHED
                      (put_session session_id
                         (NegotiationSession.set_status NegotiationStatus.CONFIRMED session1)
                         db))
            else put_session session_id session1 db).
Proof.
  intros Hsession Hlost Hfound Hparty.
  unfold is_party in Hparty. unfold own_flag, other_flag, other_party_confirmed, confirm_item.
  rewrite Hsession.
  destruct (owned_by (lost_item db session) user_id) eqn:Hseeker;
    [| simpl in Hparty; rewrite Hparty]; cbn [negb].
  - eexists. split; [reflexivity |].
    change (lost_item db (NegotiationSession.set_seeker_confirmed (Some true) session))
      with (lost_item db session).
    rewrite Hseeker. split; [done |]. split; [done |].
    cbn [NegotiationSession.seeker_confirmed NegotiationSession.finder_confirmed
         NegotiationSession.set_seeker_confirmed flag_truthy default andb].
    destruct (flag_truthy (NegotiationSession.finder_confirmed session)) eqn:Hother;
      unfold flag_truthy in Hother; rewrite Hother; [| done].
    set (session1 := NegotiationSession.set_status _ _).
    destruct (handle_success_effect session1 (put_session session_id session1 db)
                lost_id found_id lost found) as (db' & -> & -> & _); done.
  - eexists. split; [reflexivity |].
    change (lost_item db (NegotiationSession.set_finder_confirmed (Some true) session))
      with (lost_item db session).
    rewrite Hseeker. split; [done |]. split; [done |].
    cbn [NegotiationSession.seeker_confirmed NegotiationSession.finder_confirmed
         NegotiationSession.set_finder_confirmed flag_truthy default].
    destruct (flag_truthy (NegotiationSession.seeker_confirmed session)) eqn:Hother;
      unfold flag_truthy in Hother; rewrite Hother; [| done].
    cbn [andb].
    set (session1 := NegotiationSession.set_status _ _).
    destruct (handle_success_effect session1 (put_session session_id session1 db)
                lost_id found_id lost found) as (db' & -> & -> & _); done.
Qed.

(** C5: on a PENDING_CONFIRM session whose items are in the table, with
    [user_id] and [other_id] its two parties.  A party answering "not mine"
    moves the session to REJECTED, with its flag false, records a FailedMatch
    row for the pair and puts both items back to OPEN.  A party answering
    "mine" while the other party's flag is not true has its own flag set and
    leaves the other flag, the status PENDING_CONFIRM and the items as they
    are; answering so again changes nothing; and when the other party then
    answers "mine" too, the session moves to CONFIRMED with both flags true
    and both items MATCHED.  A party answering "mine" when the other party's
    flag is true already moves the session to CONFIRMED, with both flags true
    and both items MATCHED. *)
Theorem confirm_item_transitions
    (session_id user_id other_id : Z) (db : DB) (session : NegotiationSession.t)
    (lost_id found_id : Z) (lost found : Item.t) :
  negotiation_sessions db !! session_id = Some session →
  NegotiationSession.status session = NegotiationStatus.PENDING_CONFIRM →
  lost_item db session = Some (lost_id, lost) →
  found_item db session = Some (found_id, found) →
  is_party db session user_id = true →
  is_party db session other_id = true →
  owned_by (lost_item db session) other_id = negb (owned_by (lost_item db session) user_id) →
  (∃ db' session',
      confirm_item session_id false user_id db = Ok db'
      ∧ negotiation_sessions db' !! session_id = Some session'
      ∧ NegotiationSession.status session' = NegotiationStatus.REJECTED
      ∧ own_flag db session' user_id = Some false
      ∧ (∃ f, f ∈ failed_matches db'
              ∧ FailedMatch.lost_item_id f = Some lost_id
              ∧ FailedMatch.found_item_id f = Some found_id)
      ∧ item_status db' lost_id = Some OPEN
      ∧ item_status db' found_id = Some OPEN)
  ∧ (other_party_confirmed db session user_id = false →
     ∃ db' session',
       confirm_item session_id true user_id db = Ok db'
       ∧ negotiation_sessions db' !! session_id = Some session'
       ∧ NegotiationSession.status session' = NegotiationStatus.PENDING_CONFIRM
       ∧ own_flag db session' user_id = Some true
       ∧ other_flag db session' user_id = other_flag db session user_id
       ∧ items db' = items db
       ∧ confirm_item session_id true user_id db' = Ok db'
       ∧ ∃ db'' session'',
           confirm_item session_id true other_id db' = Ok db''
           ∧ negotiation_sessions db'' !! session_id = Some session''
           ∧ NegotiationSession.status session'' = NegotiationStatus.CONFIRMED
           ∧ NegotiationSession.seeker_confirmed session'' = Some true
           ∧ NegotiationSession.finder_confirmed session'' = Some true
           ∧ item_status db'' lost_id = Some MATCHED
           ∧ item_status db'' found_id = Some MATCHED)
  ∧ (other_party_confirmed db session user_id = true →
     ∃ db' session',
       confirm_item session_id true user_id db = Ok db'
       ∧ negotiation_sessions db' !! session_id = Some session'
       ∧ NegotiationSession.status session' = NegotiationStatus.CONFIRMED
       ∧ NegotiationSession.seeker_confirmed session' = Some true
       ∧ NegotiationSession.finder_confirmed session' = Some true
       ∧ item_status db' lost_id = Some MATCHED
       ∧ item_status db' found_id = Some MATCHED).
Proof.
  intros Hsession Hstatus Hlost Hfound Hparty Hparty' Hroles.
  pose proof Hlost as Hlost'. pose proof Hfound as Hfound'.
  apply item_at_Some in Hlost' as [Hlid Hlit]. apply item_at_Some in Hfound' as [Hfid Hfit].
  assert (Hmatched : ∀ session1 : NegotiationSession.t,
            NegotiationSession.lost_item_id session1 = Some lost_id →
            NegotiationSession.found_item_id session1 = Some found_id →
            let db1 := set_item_status found_id MATCHED
                         (set_item_status lost_id MATCHED
                            (put_session session_id session1 db)) in
            negotiation_sessions db1 !! session_id = Some session1
            ∧ item_status db1 lost_id = Some MATCHED
            ∧ item_status db1 found_id = Some MATCHED).
  { intros session1 Hl1 Hf1 db1.
    destruct (handle_success_effect session1 (put_session session_id session1 db)
                lost_id found_id lost found) as (db' & _ & Hdb' & Hl & Hf);
      [by apply item_at_Some | by apply item_at_Some |].
    fold db1 in Hdb'. subst db'. split; [apply lookup_insert_eq | done]. }
  split; [| split].
  - unfold confirm_item, own_flag. rewrite Hsession. unfold is_party in Hparty.
    destruct (owned_by (lost_item db session) user_id) eqn:Hseeker;
      [| simpl in Hparty; rewrite Hparty]; simpl.
    + set (session1 := NegotiationSession.set_status _ _).
      destruct (handle_failure_effect session_id session1 (Some "用户确认不是自己的物品"%string)
                  (put_session session_id session1 db) lost_id found_id lost found)
        as (db' & -> & -> & Hl & Hf); [done | done |].
      eexists _, session1. split; [done |]. split; [apply lookup_insert_eq |].
      split; [done |].
      change (lost_item db session1) with (lost_item db session). rewrite Hseeker.
      split; [done |]. split; [| done].
      eexists. split; [apply elem_of_app; right; apply list_elem_of_singleton; done |].
      done.
    + set (session1 := NegotiationSession.set_status _ _).
      destruct (handle_failure_effect session_id session1 (Some "用户确认不是自己的物品"%string)
                  (put_session session_id session1 db) lost_id found_id lost found)
        as (db' & -> & -> & Hl & Hf); [done | done |].
      eexists _, session1. split; [done |]. split; [apply lookup_insert_eq |].
      split; [done |].
      change (lost_item db session1) with (lost_item db session). rewrite Hseeker.
      split; [done |]. split; [| done].
      eexists. split; [apply elem_of_app; right; apply list_elem_of_singleton; done |].
      done.
  - intros Hother.
    destruct (confirm_item_mine session_id user_id db session lost_id found_id lost found)
      as (session1 & Hs1 & Hown & Hoth & Hconfirm); [done .. |].
    rewrite Hother in Hconfirm.
    assert (Hids : NegotiationSession.lost_item_id session1 = Some lost_id
                   ∧ NegotiationSession.found_item_id session1 = Some found_id
                   ∧ NegotiationSession.status session1
                     = NegotiationStatus.PENDING_CONFIRM).
    { rewrite Hs1. by destruct (owned_by (lost_item db session) user_id). }
    destruct Hids as (Hl1 & Hf1 & Hst1).
    set (db1 := put_session session_id session1 db) in *.
    assert (Hlost1 : lost_item db1 session1 = Some (lost_id, lost))
      by (by apply item_at_Some).
    assert (Hfound1 : found_item db1 session1 = Some (found_id, found))
      by (by apply item_at_Some).
    assert (Hlost0 : lost_item db session1 = Some (lost_id, lost))
      by (by apply item_at_Some).
    assert (Hparty1 : ∀ u, is_party db1 session1 u = is_party db session u).
    { intros u. unfold is_party. by rewrite Hlost1, Hfound1, Hlost, Hfound. }
    assert (Hother1 : ∀ u, other_party_confirmed db1 session1 u
                           = flag_truthy (other_flag db session1 u)).
    { intros u. unfold other_party_confirmed, other_flag. rewrite Hlost1, Hlost0.
      by destruct (owned_by (Some (lost_id, lost)) u). }
    exists db1, session1.
    split; [done |]. split; [apply put_session_lookup |].
    split; [done |]. split; [done |]. split; [done |]. split; [done |].
    split.
    + destruct (confirm_item_mine session_id user_id db1 session1 lost_id found_id
                  lost found) as (session2 & Hs2 & _ & _ & Hagain);
        [apply put_session_lookup | done | done | by rewrite Hparty1 |].
      rewrite Hagain, Hother1, Hoth, <- other_party_confirmed_flag, Hother.
      f_equal. unfold db1. rewrite put_session_put_session. f_equal.
      rewrite Hs2, Hlost1. unfold own_flag in Hown. rewrite Hlost0 in Hown.
      rewrite Hlost in Hs1.
      destruct (owned_by (Some (lost_id, lost)) user_id); destruct session1; simpl in *;
        by rewrite Hown.
    + destruct (confirm_item_mine session_id other_id db1 session1 lost_id found_id
                  lost found) as (session2 & Hs2 & Hown2 & Hoth2 & Hnext);
        [apply put_session_lookup | done | done | by rewrite Hparty1 |].
      assert (Ho : other_party_confirmed db1 session1 other_id = true).
      { rewrite Hother1. unfold other_flag, own_flag in *.
        rewrite Hlost0 in *. rewrite Hlost in Hroles. rewrite Hroles.
        destruct (owned_by (Some (lost_id, lost)) user_id); simpl; by rewrite Hown. }
      rewrite Ho in Hnext.
      assert (Hids2 : NegotiationSession.lost_item_id session2 = Some lost_id
                      ∧ NegotiationSession.found_item_id session2 = Some found_id).
      { rewrite Hs2. by destruct (owned_by (lost_item db1 session1) other_id). }
      destruct Hids2 as [Hl2 Hf2].
      destruct (Hmatched (NegotiationSession.set_status NegotiationStatus.CONFIRMED session2))
        as (Hlook & Hml & Hmf); [done | done |].
      eexists _, _. split; [exact Hnext |].
      unfold db1. rewrite put_session_put_session.
      split; [exact Hlook |]. split; [done |].
      assert (Hlost2 : lost_item db1 session2 = Some (lost_id, lost))
        by (by apply item_at_Some).
      unfold own_flag, other_flag in Hown2, Hoth2, Hown.
      rewrite ?Hlost2, ?Hlost1 in Hown2. rewrite ?Hlost2, ?Hlost1 in Hoth2.
      rewrite Hlost0 in Hown.
      rewrite Hlost in Hroles. rewrite Hroles in Hown2, Hoth2.
      cbn [NegotiationSession.set_status NegotiationSession.seeker_confirmed
           NegotiationSession.finder_confirmed].
      destruct (owned_by (Some (lost_id, lost)) user_id); simpl in *;
        (split; [| split; [| done]]); congruence.
  - intros Hother.
    destruct (confirm_item_mine session_id user_id db session lost_id found_id lost found)
      as (session1 & Hs1 & Hown & Hoth & Hconfirm); [done .. |].
    rewrite Hother in Hconfirm.
    assert (Hids : NegotiationSession.lost_item_id session1 = Some lost_id
                   ∧ NegotiationSession.found_item_id session1 = Some found_id).
    { rewrite Hs1. by destruct (owned_by (lost_item db session) user_id). }
    destruct Hids as (Hl1 & Hf1).
    destruct (Hmatched (NegotiationSession.set_status NegotiationStatus.CONFIRMED session1))
      as (Hlook & Hml & Hmf); [done | done |].
    eexists _, _. split; [exact Hconfirm |].
    split; [exact Hlook |]. split; [done |].
    assert (Hlost0 : lost_item db session1 = Some (lost_id, lost))
      by (by apply item_at_Some).
    unfold other_party_confirmed in Hother. unfold own_flag, other_flag in Hown, Hoth.
    rewrite Hlost0 in Hown, Hoth. rewrite Hlost in Hoth, Hother.
    cbn [NegotiationSession.set_status NegotiationSession.seeker_confirmed
         NegotiationSession.finder_confirmed].
    destruct (owned_by (Some (lost_id, lost)) user_id);
      rewrite Hown; rewrite Hoth;
      (split; [| split; [| done]]); try done;
      by destruct (NegotiationSession.finder_confirmed session) as [[]|],
        (NegotiationSession.seeker_confirmed session) as [[]|].
Qed.

(** ** Return schedules *)

Lemma filter_update_first {A} (Q P : A → bool) (f : A → A) (l : list A) :
  (∀ x, P x = true → Q x = true) →
  (∀ x, Q (f x) = Q x) →
  filter (λ x, Q x = true) (update_first P f l)
  = update_first P f (filter (λ x, Q x = true) l).
Proof.
  intros HPQ Hf. induction l as [|x l IH]; [done |]. simpl.
  destruct (P x) eqn:HP.
  - rewrite !filter_cons, Hf, (HPQ x HP). simpl. by rewrite HP.
  - rewrite !filter_cons. destruct (decide (Q x = true)) as [HQ | HQ].
    + simpl. by rewrite HP, IH.
    + done.
Qed.

Lemma first_where_filter {A} (Q P : A → bool) (l : list A) :
  (∀ x, P x = true → Q x = true) →
  first_where P l = first_where P (filter (λ x, Q x = true) l).
Proof.
  intros HPQ. unfold first_where. f_equal.
  induction l as [|x l IH]; [done |].
  rewrite !filter_cons. destruct (decide (P x = true)) as [HP | HP].
  - rewrite decide_True by auto. rewrite filter_cons, decide_True by done. by rewrite IH.
  - destruct (decide (Q x = true)); [rewrite filter_cons, decide_False by done |]; done.
Qed.

Lemma pending_of_session_of_session (session_id : Z) (r : ReturnSchedule.t) :
  pending_of_session session_id r = true → of_session session_id r = true.
Proof. unfold pending_of_session. by intros [? _]%andb_prop. Qed.

Lemma strip_truthy (s : string) :
  str_truthy (strip s) = true → str_truthy s = true.
Proof. by destruct s. Qed.

Lemma owned_by_is_truthy (it : option (Z * Item.t)) (user_id : Z) :
  owned_by it user_id = true → ∃ id i, it = Some (id, i) ∧ Item.owner_id i = Some user_id.
Proof.
  destruct it as [[id i]|]; simpl; [| done].
  intros H%bool_decide_eq_true. eauto.
Qed.

Lemma create_schedule_effect (session_id user_id : Z) (schedule : ScheduleCreate.t)
    (db : DB) (session : NegotiationSession.t) :
  negotiation_sessions db !! session_id = Some session →
  NegotiationSession.status session = NegotiationStatus.CONFIRMED →
  owned_by (found_item db session) user_id = true →
  (schedules_of session_id db = []
   ∨ ∃ r, schedules_of session_id db = [r] ∧ ReturnSchedule.status r ≠ "PENDING"%string) →
  ∃ db' r',
    create_schedule session_id schedule user_id db = Ok db'
    ∧ negotiation_sessions db'
      = <[session_id := NegotiationSession.set_status NegotiationStatus.SCHEDULE_PENDING session]>
          (negotiation_sessions db)
    ∧ items db' = items db
    ∧ schedules_of session_id db' = [r']
    ∧ ReturnSchedule.proposed_time r' = Some (ScheduleCreate.proposed_time schedule)
    ∧ ReturnSchedule.proposed_location r' = Some (ScheduleCreate.proposed_location schedule)
    ∧ ReturnSchedule.notes r' = ScheduleCreate.notes schedule
    ∧ ReturnSchedule.status r' = "PENDING"%string
    ∧ ReturnSchedule.reject_reason r' = None.
Proof.
  intros Hsession Hstatus Howner Hsched.
  unfold create_schedule. rewrite Hsession, Howner, Hstatus. simpl.
  rewrite (first_where_filter (of_session session_id)) by done.
  fold (schedules_of session_id db).
  destruct Hsched as [Hnone | (r & Hone & Hr)].
  - rewrite Hnone. simpl.
    eexists _, _. split; [reflexivity |].
    split; [by case_match |]. split; [by case_match |].
    split; [| shelve].
    assert (Hs : ∀ db1 : DB, return_schedules db1 = return_schedules db ++ [ReturnSchedule.mk session_id
              (Some (ScheduleCreate.proposed_time schedule))
              (Some (ScheduleCreate.proposed_location schedule))
              (ScheduleCreate.notes schedule) "PENDING" None false false] →
            schedules_of session_id db1 = [ReturnSchedule.mk session_id
              (Some (ScheduleCreate.proposed_time schedule))
              (Some (ScheduleCreate.proposed_location schedule))
              (ScheduleCreate.notes schedule) "PENDING" None false false]).
    { intros db1 Hdb1. unfold schedules_of in *. rewrite Hdb1, filter_app, Hnone. simpl.
      rewrite filter_cons, decide_True; [done |]. unfold of_session. simpl. apply Z.eqb_refl. }
    case_match; by apply Hs.
    Unshelve. done.
  - assert (Hr' : of_session session_id r = true).
    { assert (Hin : r ∈ [r]) by (by apply list_elem_of_singleton).
      rewrite <- Hone in Hin. by apply list_elem_of_filter in Hin as [? _]. }
    assert (Heqb : String.eqb (ReturnSchedule.status r) "PENDING" = false)
      by (by apply String.eqb_neq).
    rewrite Hone. unfold first_where. rewrite filter_cons, decide_True by done.
    cbn [head]. rewrite Heqb. cbn [negb].
    eexists _, _. split; [reflexivity |].
    split; [by case_match |]. split; [by case_match |].
    split; [| shelve].
    assert (Hs : ∀ db1 : DB, return_schedules db1 =
              update_first (of_session session_id)
                (λ existing, ReturnSchedule.mk (ReturnSchedule.session_id existing)
                   (Some (ScheduleCreate.proposed_time schedule))
                   (Some (ScheduleCreate.proposed_location schedule))
                   (ScheduleCreate.notes schedule) "PENDING" None
                   (ReturnSchedule.seeker_confirmed existing)
                   (ReturnSchedule.finder_confirmed existing)) (return_schedules db) →
            schedules_of session_id db1 = [ReturnSchedule.mk (ReturnSchedule.session_id r)
              (Some (ScheduleCreate.proposed_time schedule))
              (Some (ScheduleCreate.proposed_location schedule))
              (ScheduleCreate.notes schedule) "PENDING" None
              (ReturnSchedule.seeker_confirmed r) (ReturnSchedule.finder_confirmed r)]).
    { intros db1 Hdb1. unfold schedules_of in *.
      rewrite Hdb1, filter_update_first, Hone by done. simpl.
      by rewrite Hr'. }
    case_match; by apply Hs.
    Unshelve. done.
Qed.

Lemma schedules_of_update_pending (session_id : Z) (f : ReturnSchedule.t → ReturnSchedule.t)
    (db db' : DB) (r : ReturnSchedule.t) :
  (∀ x, ReturnSchedule.session_id (f x) = ReturnSchedule.session_id x) →
  return_schedules db'
  = update_first (pending_of_session session_id) f (return_schedules db) →
  schedules_of session_id db = [r] →
  ReturnSchedule.status r = "PENDING"%string →
  schedules_of session_id db' = [f r].
Proof.
  intros Hf Hdb' Hone Hpending. unfold schedules_of in *.
  rewrite Hdb', filter_update_first, Hone.
  - assert (Hr' : of_session session_id r = true).
    { assert (Hin : r ∈ [r]) by (by apply list_elem_of_singleton).
      rewrite <- Hone in Hin. by apply list_elem_of_filter in Hin as [? _]. }
    simpl. unfold pending_of_session. by rewrite Hr', Hpending.
  - apply pending_of_session_of_session.
  - intros x. unfold of_session. by rewrite Hf.
Qed.

Lemma reject_schedule_effect (session_id user_id : Z) (reject : RejectRequest.t)
    (db : DB) (session : NegotiationSession.t) (r : ReturnSchedule.t) :
  negotiation_sessions db !! session_id = Some session →
  NegotiationSession.status session = NegotiationStatus.SCHEDULE_PENDING →
  owned_by (lost_item db session) user_id = true →
  str_truthy (strip (RejectRequest.reason reject)) = true →
  schedules_of session_id db = [r] →
  ReturnSchedule.status r = "PENDING"%string →
  ∃ db',
    reject_schedule session_id reject user_id db = Ok db'
    ∧ negotiation_sessions db'
      = <[session_id := NegotiationSession.set_status NegotiationStatus.CONFIRMED session]>
          (negotiation_sessions db)
    ∧ items db' = items db
    ∧ schedules_of session_id db'
      = [ReturnSchedule.mk (ReturnSchedule.session_id r) (ReturnSchedule.proposed_time r)
           (ReturnSchedule.proposed_location r) (ReturnSchedule.notes r) "REJECTED"
           (Some (strip (RejectRequest.reason reject)))
           (ReturnSchedule.seeker_confirmed r) (ReturnSchedule.finder_confirmed r)].
Proof.
  intros Hsession Hstatus Howner Hreason Hone Hpending.
  unfold reject_schedule. rewrite Hsession, Howner, Hstatus, Hreason.
  rewrite (strip_truthy _ Hreason). simpl.
  eexists. split; [reflexivity |].
  split; [by case_match |]. split; [by case_match |].
  apply (schedules_of_update_pending session_id
           (λ schedule,
              ReturnSchedule.mk (ReturnSchedule.session_id schedule)
                (ReturnSchedule.proposed_time schedule)
                (ReturnSchedule.proposed_location schedule)
                (ReturnSchedule.notes schedule) "REJECTED"
                (Some (strip (RejectRequest.reason reject)))
                (ReturnSchedule.seeker_confirmed schedule)
                (ReturnSchedule.finder_confirmed schedule)) db);
    [done | by case_match | done | done].
Qed.

Lemma approve_schedule_effect (session_id user_id : Z)
    (db : DB) (session : NegotiationSession.t) (r : ReturnSchedule.t) :
  negotiation_sessions db !! session_id = Some session →
  NegotiationSession.status session = NegotiationStatus.SCHEDULE_PENDING →
  owned_by (lost_item db session) user_id = true →
  schedules_of session_id db = [r] →
  ReturnSchedule.status r = "PENDING"%string →
  ∃ db',
    approve_schedule session_id user_id db = Ok db'
    ∧ negotiation_sessions db'
      = <[session_id := NegotiationSession.set_status NegotiationStatus.WAITING_RETURN session]>
          (negotiation_sessions db)
    ∧ items db' = items db
    ∧ schedules_of session_id db'
      = [ReturnSchedule.mk (ReturnSchedule.session_id r) (ReturnSchedule.proposed_time r)
           (ReturnSchedule.proposed_location r) (ReturnSchedule.notes r) "APPROVED"
           (ReturnSchedule.reject_reason r) (ReturnSchedule.seeker_confirmed r)
           (ReturnSchedule.finder_confirmed r)].
Proof.
  intros Hsession Hstatus Howner Hone Hpending.
  unfold approve_schedule. rewrite Hsession, Howner, Hstatus. simpl.
  eexists. split; [reflexivity |].
  split; [by case_match |]. split; [by case_match |].
  apply (schedules_of_update_pending session_id
           (λ schedule,
              ReturnSchedule.mk (ReturnSchedule.session_id schedule)
                (ReturnSchedule.proposed_time schedule)
                (ReturnSchedule.proposed_location schedule)
                (ReturnSchedule.notes schedule) "APPROVED"
                (ReturnSchedule.reject_reason schedule)
                (ReturnSchedule.seeker_confirmed schedule)
                (ReturnSchedule.finder_confirmed schedule)) db);
    [done | by case_match | done | done].
Qed.

Lemma owned_by_same_items (db db' : DB) (ref : option Z) (user_id : Z) :
  items db' = items db →
  owned_by (item_at db' ref) user_id = owned_by (item_at db ref) user_id.
Proof. intros H. unfold item_at. by rewrite H. Qed.

(** C9 (corrected): from a CONFIRMED session with no schedule yet, or with
    one that is not pending, the finder's proposal, the seeker's rejection
    with a reason that is not blank, the finder's new proposal and the
    seeker's approval all succeed; after the rejection the session is
    CONFIRMED again and the schedule is REJECTED with the stripped reason; at
    the end the session is in WAITING_RETURN and has a single schedule,
    APPROVED, with the time and location of the latest proposal and no
    rejection reason. *)
Theorem schedule_round_trip
    (session_id finder_id seeker_id : Z)
    (first latest : ScheduleCreate.t) (reject : RejectRequest.t)
    (db : DB) (session : NegotiationSession.t) :
  negotiation_sessions db !! session_id = Some session →
  NegotiationSession.status session = NegotiationStatus.CONFIRMED →
  owned_by (found_item db session) finder_id = true →
  owned_by (lost_item db session) seeker_id = true →
  strip (RejectRequest.reason reject) ≠ ""%string →
  (schedules_of session_id db = []
   ∨ ∃ r, schedules_of session_id db = [r] ∧ ReturnSchedule.status r ≠ "PENDING"%string) →
  ∃ db1 db2 db3 db4 rejected approved,
    create_schedule session_id first finder_id db = Ok db1
    ∧ reject_schedule session_id reject seeker_id db1 = Ok db2
    ∧ create_schedule session_id latest finder_id db2 = Ok db3
    ∧ approve_schedule session_id seeker_id db3 = Ok db4
    ∧ session_status db2 session_id = Some NegotiationStatus.CONFIRMED
    ∧ schedules_of session_id db2 = [rejected]
    ∧ ReturnSchedule.status rejected = "REJECTED"%string
    ∧ ReturnSchedule.reject_reason rejected = Some (strip (RejectRequest.reason reject))
    ∧ session_status db4 session_id = Some NegotiationStatus.WAITING_RETURN
    ∧ schedules_of session_id db4 = [approved]
    ∧ ReturnSchedule.proposed_time approved = Some (ScheduleCreate.proposed_time latest)
    ∧ ReturnSchedule.proposed_location approved
      = Some (ScheduleCreate.proposed_location latest)
    ∧ ReturnSchedule.status approved = "APPROVED"%string
    ∧ ReturnSchedule.reject_reason approved = None.
Proof.
  intros Hsession Hstatus Hfinder Hseeker Hreason Hsched.
  assert (Hreason' : str_truthy (strip (RejectRequest.reason reject)) = true).
  { unfold str_truthy. apply negb_true_iff. by apply String.eqb_neq. }
  unfold lost_item, found_item in *.
  destruct (create_schedule_effect session_id finder_id first db session)
    as (db1 & r1 & Hop1 & Hs1 & Hi1 & Hr1 & _ & _ & _ & Hp1 & _); [done .. |].
  destruct (reject_schedule_effect session_id seeker_id reject db1
              (NegotiationSession.set_status NegotiationStatus.SCHEDULE_PENDING session) r1)
    as (db2 & Hop2 & Hs2 & Hi2 & Hr2);
    [by rewrite Hs1, lookup_insert_eq | done
    | unfold lost_item; simpl; by rewrite (owned_by_same_items db db1) | done ..|].
  destruct (create_schedule_effect session_id finder_id latest db2
              (NegotiationSession.set_status NegotiationStatus.CONFIRMED
                 (NegotiationSession.set_status NegotiationStatus.SCHEDULE_PENDING session)))
    as (db3 & r3 & Hop3 & Hs3 & Hi3 & Hr3 & Ht3 & Hl3 & _ & Hp3 & Hrr3);
    [by rewrite Hs2, lookup_insert_eq | done
    | unfold found_item; simpl; rewrite (owned_by_same_items db db2); [done | congruence]
    | right; eexists; split; [exact Hr2 | done] |].
  destruct (approve_schedule_effect session_id seeker_id db3
              (NegotiationSession.set_status NegotiationStatus.SCHEDULE_PENDING
                 (NegotiationSession.set_status NegotiationStatus.CONFIRMED
                    (NegotiationSession.set_status NegotiationStatus.SCHEDULE_PENDING session)))
              r3)
    as (db4 & Hop4 & Hs4 & Hi4 & Hr4);
    [by rewrite Hs3, lookup_insert_eq | done
    | unfold lost_item; simpl; rewrite (owned_by_same_items db db3); [done | congruence]
    | done .. |].
  eexists db1, db2, db3, db4, _, _.
  do 4 (split; [done |]).
  split; [unfold session_status; by rewrite Hs2, lookup_insert_eq |].
  split; [exact Hr2 |]. do 2 (split; [done |]).
  split; [unfold session_status; by rewrite Hs4, lookup_insert_eq |].
  split; [exact Hr4 |]. simpl. by rewrite Ht3, Hl3, Hrr3.
Qed.

(** C9, where the claim fails.  A reason that is not empty but blank (one
    ideographic space) is refused with 400, the session stays
    SCHEDULE_PENDING, so the new proposal is refused too, and the approval
    leaves the schedule with the time of the first proposal.  And a session
    can be CONFIRMED with a pending schedule, after [confirm_item] on a
    SCHEDULE_PENDING session: there the first proposal is refused with 400. *)
Theorem schedule_round_trip_can_fail :
  session_status db_confirmed 1 = Some NegotiationStatus.CONFIRMED
  ∧ RejectRequest.reason blank_reason ≠ ""%string
  ∧ create_schedule 1 first_proposal bob db_confirmed = Ok db_scheduled
  ∧ reject_schedule 1 blank_reason alice db_scheduled = HTTPException 400
  ∧ create_schedule 1 latest_proposal bob db_scheduled = HTTPException 400
  ∧ (∃ db4 approved,
       approve_schedule 1 alice db_scheduled = Ok db4
       ∧ session_status db4 1 = Some NegotiationStatus.WAITING_RETURN
       ∧ schedules_of 1 db4 = [approved]
       ∧ ReturnSchedule.proposed_time approved
         = Some (ScheduleCreate.proposed_time first_proposal)
       ∧ ReturnSchedule.proposed_time approved
         ≠ Some (ScheduleCreate.proposed_time latest_proposal))
  ∧ confirm_item 1 true alice db_scheduled = Ok db_reconfirmed
  ∧ session_status db_reconfirmed 1 = Some NegotiationStatus.CONFIRMED
  ∧ owned_by (found_item db_reconfirmed (session_in db_reconfirmed)) bob = true
  ∧ create_schedule 1 first_proposal bob db_reconfirmed = HTTPException 400.
Proof.
  split; [by vm_compute |]. split; [done |].
  split; [by vm_compute |]. split; [by vm_compute |]. split; [by vm_compute |].
  split.
  - exists (committed db_scheduled (approve_schedule 1 alice db_scheduled)).
    eexists. split; [by vm_compute |]. split; [by vm_compute |].
    split; [by vm_compute |]. split; by vm_compute.
  - split; [by vm_compute |]. split; [by vm_compute |]. split; by vm_compute.
Qed.

(** ** Forced override *)

Lemma find_matches_frame (sim : string → string → Q) (db db' : DB) :
  items db' = items db →
  failed_matches db' = failed_matches db →
  ∀ lost_id lost limit,
    find_matches sim db' lost_id lost limit = find_matches sim db lost_id lost limit.
Proof.
  intros Hi Hf lost_id lost limit.
  unfold find_matches, found_items, failed_ids. by rewrite Hi, Hf.
Qed.

(** C10: [force_match] by the owner of the lost item on a FAILED or REJECTED
    session only rewrites that session (status PENDING_CONFIRM, seeker flag
    true, the audit entry appended to the chat log); items, images, failed
    matches, notifications and schedules are untouched, so [find_matches]
    returns what it returned before and still excludes every failed pair. *)
Theorem force_match_keeps_exclusions
    (sim : string → string → Q)
    (session_id user_id : Z) (db : DB) (session : NegotiationSession.t) :
  negotiation_sessions db !! session_id = Some session →
  owned_by (lost_item db session) user_id = true →
  NegotiationSession.status session = NegotiationStatus.FAILED
  ∨ NegotiationSession.status session = NegotiationStatus.REJECTED →
  ∃ db',
    force_match session_id user_id db = Ok db'
    ∧ negotiation_sessions db'
      = <[session_id :=
            NegotiationSession.mk
              (NegotiationSession.lost_item_id session)
              (NegotiationSession.found_item_id session)
              NegotiationStatus.PENDING_CONFIRM
              (NegotiationSession.match_score session)
              (NegotiationSession.chat_log session ++ [audit_entry])
              (NegotiationSession.completed_at session)
              (Some true)
              (NegotiationSession.finder_confirmed session)]>
          (negotiation_sessions db)
    ∧ items db' = items db
    ∧ item_images db' = item_images db
    ∧ failed_matches db' = failed_matches db
    ∧ notifications db' = notifications db
    ∧ return_schedules db' = return_schedules db
    ∧ (∀ lost_id lost limit,
         find_matches sim db' lost_id lost limit = find_matches sim db lost_id lost limit)
    ∧ (∀ f lost_id found_id lost limit m,
         f ∈ failed_matches db →
         FailedMatch.lost_item_id f = Some lost_id →
         FailedMatch.found_item_id f = Some found_id →
         m ∈ find_matches sim db' lost_id lost limit →
         Match.item_id m ≠ found_id).
Proof.
  intros Hsession Howner Hstatus.
  unfold force_match. rewrite Hsession, Howner. simpl.
  assert (Hst : bool_decide (NegotiationSession.status session = NegotiationStatus.FAILED)
                || bool_decide (NegotiationSession.status session = NegotiationStatus.REJECTED)
                = true).
  { destruct Hstatus as [-> | ->]; done. }
  rewrite Hst. simpl.
  eexists. split; [done |].
  do 6 (split; [done |]).
  split; [by apply find_matches_frame |].
  intros f lost_id found_id lost limit m Hf Hl Hfound Hm <-.
  apply find_matches_found_items in Hm as (Hm & _).
  apply found_items_not_failed in Hm. apply Hm.
  apply elem_of_failed_ids. exists f. done.
Qed.

(** ** Return confirmation *)

Lemma when_id_truthy (id : Z) (f : Z → DB → DB) (db : DB) :
  id ≠ 0 → when_id (Some id) f db = f id db.
Proof. intros Hne. unfold when_id. by rewrite (proj2 (Z.eqb_neq id 0)). Qed.

Lemma confirm_return_both_confirmed
    (session_id user_id : Z) (db : DB) (session : NegotiationSession.t)
    (lost_id found_id : Z) (lost found : Item.t) :
  negotiation_sessions db !! session_id = Some session →
  NegotiationSession.status session = NegotiationStatus.WAITING_RETURN →
  lost_item db session = Some (lost_id, lost) →
  found_item db session = Some (found_id, found) →
  lost_id ≠ 0 → found_id ≠ 0 →
  is_party db session user_id = true →
  other_party_confirmed db session user_id = true →
  ∃ db' session',
    confirm_return session_id true user_id db = Ok db'
    ∧ negotiation_sessions db' !! session_id = Some session'
    ∧ NegotiationSession.status session' = NegotiationStatus.RETURNED
    ∧ NegotiationSession.lost_item_id session' = None
    ∧ NegotiationSession.found_item_id session' = None
    ∧ items db' = delete found_id (delete lost_id (items db))
    ∧ (∀ i, i ∈ item_images db' ↔
            i ∈ item_images db ∧ ItemImage.item_id i ≠ lost_id ∧ ItemImage.item_id i ≠ found_id)
    ∧ (∀ f, f ∈ failed_matches db' ↔
            f ∈ failed_matches db
            ∧ FailedMatch.lost_item_id f ≠ Some lost_id
            ∧ FailedMatch.found_item_id f ≠ Some lost_id
            ∧ FailedMatch.lost_item_id f ≠ Some found_id
            ∧ FailedMatch.found_item_id f ≠ Some found_id).
Proof.
  intros Hsession Hstatus Hlost Hfound Hl0 Hf0 Hparty Hother.
  unfold is_party in Hparty. unfold other_party_confirmed in Hother.
  unfold confirm_return. rewrite Hsession.
  rewrite bool_decide_eq_false_2 by (rewrite Hstatus; auto).
  rewrite Hparty. cbn [negb].
  destruct (owned_by (lost_item db session) user_id) eqn:Hseeker.
  - cbn [negb]. cbn [NegotiationSession.seeker_confirmed NegotiationSession.finder_confirmed
         NegotiationSession.set_seeker_confirmed flag_truthy default id].
    unfold flag_truthy in Hother. rewrite Hother. cbn [andb].
    set (db1 := put_session _ _ _).
    set (session1 := NegotiationSession.set_completed_at _).
    assert (Hl1 : lost_item db1 session1 = Some (lost_id, lost)) by exact Hlost.
    assert (Hf1 : found_item db1 session1 = Some (found_id, found)) by exact Hfound.
    rewrite Hl1, Hf1. cbn [fmap option_fmap option_map fst foldl].
    rewrite !when_id_truthy by done.
    eexists _, _. split; [reflexivity |].
    split; [apply lookup_insert_eq |].
    do 4 (split; [reflexivity |]).
    split.
    + intros i. cbn. rewrite !list_elem_of_filter, !Z.eqb_neq. tauto.
    + intros f. cbn. rewrite !list_elem_of_filter.
      rewrite !orb_false_iff.
      destruct (FailedMatch.lost_item_id f) as [a|], (FailedMatch.found_item_id f) as [b|];
        cbn; rewrite ?Z.eqb_neq; intuition congruence.
  - cbn [negb]. cbn [NegotiationSession.seeker_confirmed NegotiationSession.finder_confirmed
         NegotiationSession.set_finder_confirmed flag_truthy default id].
    unfold flag_truthy in Hother. rewrite Hother. cbn [andb].
    set (db1 := put_session _ _ _).
    set (session1 := NegotiationSession.set_completed_at _).
    assert (Hl1 : lost_item db1 session1 = Some (lost_id, lost)) by exact Hlost.
    assert (Hf1 : found_item db1 session1 = Some (found_id, found)) by exact Hfound.
    rewrite Hl1, Hf1. cbn [fmap option_fmap option_map fst foldl].
    rewrite !when_id_truthy by done.
    eexists _, _. split; [reflexivity |].
    split; [apply lookup_insert_eq |].
    do 4 (split; [reflexivity |]).
    split.
    + intros i. cbn. rewrite !list_elem_of_filter, !Z.eqb_neq. tauto.
    + intros f. cbn. rewrite !list_elem_of_filter.
      rewrite !orb_false_iff.
      destruct (FailedMatch.lost_item_id f) as [a|], (FailedMatch.found_item_id f) as [b|];
        cbn; rewrite ?Z.eqb_neq; intuition congruence.
Qed.

Lemma confirm_return_waits
    (session_id user_id : Z) (db : DB) (session : NegotiationSession.t) :
  negotiation_sessions db !! session_id = Some session →
  NegotiationSession.status session = NegotiationStatus.WAITING_RETURN →
  is_party db session user_id = true →
  other_party_confirmed db session user_id = false →
  ∃ db',
    confirm_return session_id true user_id db = Ok db'
    ∧ session_status db' session_id = Some NegotiationStatus.WAITING_RETURN
    ∧ items db' = items db.
Proof.
  intros Hsession Hstatus Hparty Hother.
  unfold is_party in Hparty. unfold other_party_confirmed in Hother.
  unfold confirm_return. rewrite Hsession.
  rewrite bool_decide_eq_false_2 by (rewrite Hstatus; auto).
  rewrite Hparty. cbn [negb].
  unfold flag_truthy in Hother.
  destruct (owned_by (lost_item db session) user_id) eqn:Hseeker;
    cbn [negb NegotiationSession.seeker_confirmed NegotiationSession.finder_confirmed
         NegotiationSession.set_seeker_confirmed NegotiationSession.set_finder_confirmed
         flag_truthy default id];
    rewrite Hother, ?andb_false_r; cbn [andb];
    (eexists; split; [reflexivity |]; split; [| reflexivity]);
    unfold session_status; rewrite put_session_lookup; simpl; by rewrite Hstatus.
Qed.

(** C1: in the example the session has gone through the designed flow (both
    owners confirmed the item, the schedule was approved) and nobody has
    confirmed the return; the seeker's confirmation alone then finalises it:
    the session becomes RETURNED, both items are deleted, and the finder, who
    never confirmed, can no longer answer. *)
Theorem confirm_return_finalizes_on_one_confirmation :
  session_status db_waiting 1 = Some NegotiationStatus.WAITING_RETURN
  ∧ ReturnSchedule.seeker_confirmed <$> schedules_of 1 db_waiting = [false]
  ∧ ReturnSchedule.finder_confirmed <$> schedules_of 1 db_waiting = [false]
  ∧ ∃ db',
      confirm_return 1 true alice db_waiting = Ok db'
      ∧ session_status db' 1 = Some NegotiationStatus.RETURNED
      ∧ items db' !! 1 = None
      ∧ items db' !! 2 = None
      ∧ ReturnSchedule.finder_confirmed <$> schedules_of 1 db' = [false]
      ∧ confirm_return 1 true bob db' = HTTPException 400.
Proof.
  split; [by vm_compute |]. split; [by vm_compute |]. split; [by vm_compute |].
  exists (committed db_waiting (confirm_return 1 true alice db_waiting)).
  split; [by vm_compute |]. split; [by vm_compute |]. split; [by vm_compute |].
  split; [by vm_compute |]. split; by vm_compute.
Qed.

(** ** Guards of the state machine *)

Lemma guarded_operations_reject
    (session_id user_id : Z) (db : DB) (session : NegotiationSession.t)
    (schedule : ScheduleCreate.t) (reject : RejectRequest.t) (answer : bool) :
  negotiation_sessions db !! session_id = Some session →
  (NegotiationSession.status session ≠ NegotiationStatus.CONFIRMED
   ∨ owned_by (found_item db session) user_id = false →
   ∃ code, create_schedule session_id schedule user_id db = HTTPException code)
  ∧ (NegotiationSession.status session ≠ NegotiationStatus.SCHEDULE_PENDING
     ∨ owned_by (lost_item db session) user_id = false →
     ∃ code, approve_schedule session_id user_id db = HTTPException code)
  ∧ (NegotiationSession.status session ≠ NegotiationStatus.SCHEDULE_PENDING
     ∨ owned_by (lost_item db session) user_id = false →
     ∃ code, reject_schedule session_id reject user_id db = HTTPException code)
  ∧ (NegotiationSession.status session ≠ NegotiationStatus.WAITING_RETURN
     ∨ is_party db session user_id = false →
     ∃ code, confirm_return session_id answer user_id db = HTTPException code)
  ∧ (is_party db session user_id = false →
     confirm_item session_id answer user_id db = HTTPException 403)
  ∧ (NegotiationSession.status session ≠ NegotiationStatus.CONFIRMED →
     start_return session_id user_id db = HTTPException 400).
Proof.
  intros Hsession. unfold is_party.
  split; [| split; [| split; [| split; [| split]]]].
  - unfold create_schedule. rewrite Hsession. intros [Hs | ->]; [| simpl; eauto].
    destruct (owned_by _ _); simpl; [| eauto].
    rewrite bool_decide_eq_false_2 by done. simpl. eauto.
  - unfold approve_schedule. rewrite Hsession. intros [Hs | ->]; [| simpl; eauto].
    destruct (owned_by _ _); simpl; [| eauto].
    rewrite bool_decide_eq_true_2 by done. eauto.
  - unfold reject_schedule. rewrite Hsession. intros [Hs | ->]; [| simpl; eauto].
    destruct (owned_by _ _); simpl; [| eauto].
    rewrite bool_decide_eq_true_2 by done. eauto.
  - unfold confirm_return. rewrite Hsession. intros [Hs | Hp].
    + rewrite bool_decide_eq_true_2 by done. eauto.
    + case_bool_decide; [eauto |]. rewrite Hp. simpl. eauto.
  - unfold confirm_item. rewrite Hsession. intros [-> ->]%orb_false_iff. done.
  - unfold start_return. rewrite Hsession. intros Hs.
    by rewrite bool_decide_eq_true_2.
Qed.

(** C2: two operations are not guarded as the others are.  In the example,
    [confirm_item] with "not mine" on the session waiting for the return (a
    state the human confirmation does not start from) is accepted and moves
    the session to REJECTED and the items to OPEN; and [start_return] by a
    user who owns neither item is accepted on the CONFIRMED session and moves
    it to WAITING_RETURN. *)
Theorem confirm_item_and_start_return_unguarded :
  session_status db_waiting 1 = Some NegotiationStatus.WAITING_RETURN
  ∧ (∃ db',
       confirm_item 1 false alice db_waiting = Ok db'
       ∧ session_status db' 1 = Some NegotiationStatus.REJECTED
       ∧ item_status db' 1 = Some OPEN
       ∧ item_status db' 2 = Some OPEN)
  ∧ session_status db_confirmed 1 = Some NegotiationStatus.CONFIRMED
  ∧ (λ session, is_party db_confirmed session carol)
      <$> negotiation_sessions db_confirmed !! 1 = Some false
  ∧ (∃ db',
       start_return 1 carol db_confirmed = Ok db'
       ∧ session_status db' 1 = Some NegotiationStatus.WAITING_RETURN).
Proof.
  split; [by vm_compute |]. split.
  - exists (committed db_waiting (confirm_item 1 false alice db_waiting)).
    split; [by vm_compute |]. split; [by vm_compute |]. split; by vm_compute.
  - split; [by vm_compute |]. split; [by vm_compute |].
    exists (committed db_confirmed (start_return 1 carol db_confirmed)).
    split; by vm_compute.
Qed.

(** ** The example, evaluated *)

Example headphones_are_a_candidate :
  find_matches exact_similarity example_db 1 lost_headphones 10 = [headphones_match].
Proof. by vm_compute. Qed.

Example agreement_in_five_turns :
  (run_full_negotiation (list string) scripted_response 1 agree_script db_active).1.1
  = Returned (ResultStatus "SUCCESS" 5)
  ∧ session_status db_pending 1 = Some NegotiationStatus.PENDING_CONFIRM
  ∧ item_status db_pending 1 = Some NEGOTIATING
  ∧ item_status db_pending 2 = Some NEGOTIATING.
Proof. by vm_compute. Qed.

Example rejection_on_turn_two :
  (run_full_negotiation (list string) scripted_response 1 reject_script db_active).1.1
  = Returned (ResultStatus "FAILED" 2)
  ∧ session_status db_failed 1 = Some NegotiationStatus.FAILED
  ∧ failed_matches db_failed = [failed_pair]
  ∧ item_status db_failed 1 = Some OPEN
  ∧ item_status db_failed 2 = Some OPEN
  ∧ find_matches exact_similarity db_failed 1 lost_headphones 10 = [].
Proof. by vm_compute. Qed.

Example round_budget_exhausted :
  (run_full_negotiation (list string) scripted_response 1 [] db_active).1.1
  = Returned (ResultStatus "MAX_ROUNDS" 20).
Proof. by vm_compute. Qed.

(** ** The theorems at the example *)

Lemma calculate_match_score_weighted_average_witness :
  let comparisons := spec_comparisons exact_similarity lost_headphones found_headphones in
  let average := spec_average exact_similarity lost_headphones found_headphones in
  let score := calculate_match_score exact_similarity lost_headphones found_headphones in
  comparisons ≠ []
  ∧ (∃ k : Z, 0 ≤ k ≤ 10000 ∧ score = (inject_Z k / inject_Z 10000)%Q)
  ∧ (Qabs (score - average) <= (1 # 20000) + rounding_slack)%Q
  ∧ ((∀ j : Z, (rounding_slack < Qabs (average - midpoint j))%Q) →
     score = py_round average 4)
  ∧ (0 <= score ∧ score <= 1)%Q
  ∧ (Forall (λ c, c.2 == 0)%Q comparisons → score == 0)%Q.
Proof.
  apply (calculate_match_score_weighted_average exact_similarity).
  intros a b. unfold exact_similarity. destruct (String.eqb a b); by vm_compute.
Defined.


Lemma run_full_negotiation_terminates_witness :
  ∃ status_text rounds llm' session' turns,
    run_full_negotiation (list string) scripted_response 1 agree_script db_active
    = (Returned (ResultStatus status_text rounds), llm', put_session 1 session' db_active)
    ∧ NegotiationSession.chat_log session'
      = NegotiationSession.chat_log session_active ++ turns
    ∧ answers (list string) scripted_response
              (Item.set_status NEGOTIATING lost_headphones)
              (Item.set_status NEGOTIATING found_headphones)
              (NegotiationSession.chat_log session_active) agree_script turns llm'
    ∧ length turns = rounds
    ∧ (rounds ≤ MAX_NEGOTIATION_ROUNDS)%nat
    ∧ MAX_NEGOTIATION_ROUNDS = 20%nat
    ∧ (NegotiationSession.status session' = NegotiationStatus.PENDING_CONFIRM
       ↔ Exists (carries "AGREE") turns)
    ∧ (Exists (carries "REJECT") turns →
       NegotiationSession.status session' = NegotiationStatus.FAILED)
    ∧ (¬ Exists (carries "AGREE") turns → ¬ Exists (carries "REJECT") turns →
       NegotiationSession.status session' = NegotiationStatus.FAILED
       ∧ rounds = MAX_NEGOTIATION_ROUNDS)
    ∧ (∀ i m, turns !! i = Some m → (S i < rounds)%nat →
       ¬ carries "AGREE" m ∧ ¬ carries "REJECT" m).
Proof.
  apply (run_full_negotiation_terminates (list string) scripted_response 1 agree_script
           db_active session_active 1 2);
    reflexivity.
Defined.

Lemma negotiation_turns_alternate_witness :
  ∃ session' turns,
    negotiation_sessions
      (run_full_negotiation (list string) scripted_response 1 agree_script db_active).2
      !! 1
    = Some session'
    ∧ NegotiationSession.chat_log session'
      = NegotiationSession.chat_log session_active ++ turns
    ∧ (NegotiationSession.chat_log session_active = [] →
       ∀ m, turns !! 0%nat = Some m → Message.sender m = "Seeker"%string)
    ∧ (∀ i prev m,
         NegotiationSession.chat_log session' !! i = Some prev →
         NegotiationSession.chat_log session' !! S i = Some m →
         (length (NegotiationSession.chat_log session_active) ≤ S i)%nat →
         Message.sender m ≠ Message.sender prev
         ∧ (Message.sender m = "Seeker"%string ∨ Message.sender m = "Finder"%string)
         ∧ (Message.sender prev = "Seeker"%string → Message.sender m = "Finder"%string)).
Proof.
  apply (negotiation_turns_alternate (list string) scripted_response 1 agree_script
           db_active session_active).
  reflexivity.
Defined.

Lemma failed_negotiation_releases_items_witness :
  ∃ r llm' db' session,
    try_match (list string) scripted_response 1 lost_headphones headphones_match
              reject_script example_db
    = (Returned r, llm', db')
    ∧ negotiation_sessions db' !! next_id (negotiation_sessions example_db) = Some session
    ∧ NegotiationSession.lost_item_id session = Some 1
    ∧ NegotiationSession.found_item_id session = Some (Match.item_id headphones_match)
    ∧ (NegotiationSession.status session = NegotiationStatus.FAILED
       ∨ NegotiationSession.status session = NegotiationStatus.PENDING_CONFIRM)
    ∧ (NegotiationSession.status session = NegotiationStatus.FAILED →
       r = inr ()
       ∧ (∃ f, f ∈ failed_matches db'
               ∧ FailedMatch.lost_item_id f = Some 1
               ∧ FailedMatch.found_item_id f = Some (Match.item_id headphones_match)
               ∧ FailedMatch.session_id f = Some (next_id (negotiation_sessions example_db)))
       ∧ item_status db' 1 = Some OPEN
       ∧ item_status db' (Match.item_id headphones_match) = Some OPEN)
    ∧ (NegotiationSession.status session = NegotiationStatus.PENDING_CONFIRM →
       r = inl ()
       ∧ failed_matches db' = failed_matches example_db
       ∧ item_status db' 1 = Some NEGOTIATING
       ∧ item_status db' (Match.item_id headphones_match) = Some NEGOTIATING).
Proof.
  apply (failed_negotiation_releases_items (list string) scripted_response 1
           lost_headphones headphones_match reject_script example_db);
    by eexists.
Defined.

(** The seeker answers first in [db_pending], where no flag is set; the
    finder answers in [db_seeker_confirmed], where the seeker's is. *)
Lemma confirm_item_transitions_witness :
  ((∃ db' session',
      confirm_item 1 false alice db_pending = Ok db'
      ∧ negotiation_sessions db' !! 1 = Some session'
      ∧ NegotiationSession.status session' = NegotiationStatus.REJECTED
      ∧ own_flag db_pending session' alice = Some false
      ∧ (∃ f, f ∈ failed_matches db'
              ∧ FailedMatch.lost_item_id f = Some 1
              ∧ FailedMatch.found_item_id f = Some 2)
      ∧ item_status db' 1 = Some OPEN
      ∧ item_status db' 2 = Some OPEN)
   ∧ (other_party_confirmed db_pending (session_in db_pending) alice = false →
      ∃ db' session',
        confirm_item 1 true alice db_pending = Ok db'
        ∧ negotiation_sessions db' !! 1 = Some session'
        ∧ NegotiationSession.status session' = NegotiationStatus.PENDING_CONFIRM
        ∧ own_flag db_pending session' alice = Some true
        ∧ other_flag db_pending session' alice
          = other_flag db_pending (session_in db_pending) alice
        ∧ items db' = items db_pending
        ∧ confirm_item 1 true alice db' = Ok db'
        ∧ ∃ db'' session'',
            confirm_item 1 true bob db' = Ok db''
            ∧ negotiation_sessions db'' !! 1 = Some session''
            ∧ NegotiationSession.status session'' = NegotiationStatus.CONFIRMED
            ∧ NegotiationSession.seeker_confirmed session'' = Some true
            ∧ NegotiationSession.finder_confirmed session'' = Some true
            ∧ item_status db'' 1 = Some MATCHED
            ∧ item_status db'' 2 = Some MATCHED)
   ∧ (other_party_confirmed db_pending (session_in db_pending) alice = true →
      ∃ db' session',
        confirm_item 1 true alice db_pending = Ok db'
        ∧ negotiation_sessions db' !! 1 = Some session'
        ∧ NegotiationSession.status session' = NegotiationStatus.CONFIRMED
        ∧ NegotiationSession.seeker_confirmed session' = Some true
        ∧ NegotiationSession.finder_confirmed session' = Some true
        ∧ item_status db' 1 = Some MATCHED
        ∧ item_status db' 2 = Some MATCHED))
  ∧ (other_party_confirmed db_pending (session_in db_pending) alice = false
     ∧ other_party_confirmed db_seeker_confirmed (session_in db_seeker_confirmed) bob
       = true)
  ∧ ((∃ db' session',
      confirm_item 1 false bob db_seeker_confirmed = Ok db'
      ∧ negotiation_sessions db' !! 1 = Some session'
      ∧ NegotiationSession.status session' = NegotiationStatus.REJECTED
      ∧ own_flag db_seeker_confirmed session' bob = Some false
      ∧ (∃ f, f ∈ failed_matches db'
              ∧ FailedMatch.lost_item_id f = Some 1
              ∧ FailedMatch.found_item_id f = Some 2)
      ∧ item_status db' 1 = Some OPEN
      ∧ item_status db' 2 = Some OPEN)
   ∧ (other_party_confirmed db_seeker_confirmed (session_in db_seeker_confirmed) bob = false →
      ∃ db' session',
        confirm_item 1 true bob db_seeker_confirmed = Ok db'
        ∧ negotiation_sessions db' !! 1 = Some session'
        ∧ NegotiationSession.status session' = NegotiationStatus.PENDING_CONFIRM
        ∧ own_flag db_seeker_confirmed session' bob = Some true
        ∧ other_flag db_seeker_confirmed session' bob
          = other_flag db_seeker_confirmed (session_in db_seeker_confirmed) bob
        ∧ items db' = items db_seeker_confirmed
        ∧ confirm_item 1 true bob db' = Ok db'
        ∧ ∃ db'' session'',
            confirm_item 1 true alice db' = Ok db''
            ∧ negotiation_sessions db'' !! 1 = Some session''
            ∧ NegotiationSession.status session'' = NegotiationStatus.CONFIRMED
            ∧ NegotiationSession.seeker_confirmed session'' = Some true
            ∧ NegotiationSession.finder_confirmed session'' = Some true
            ∧ item_status db'' 1 = Some MATCHED
            ∧ item_status db'' 2 = Some MATCHED)
   ∧ (other_party_confirmed db_seeker_confirmed (session_in db_seeker_confirmed) bob = true →
      ∃ db' session',
        confirm_item 1 true bob db_seeker_confirmed = Ok db'
        ∧ negotiation_sessions db' !! 1 = Some session'
        ∧ NegotiationSession.status session' = NegotiationStatus.CONFIRMED
        ∧ NegotiationSession.seeker_confirmed session' = Some true
        ∧ NegotiationSession.finder_confirmed session' = Some true
        ∧ item_status db' 1 = Some MATCHED
        ∧ item_status db' 2 = Some MATCHED)).
Proof.
  split; [| split; [by vm_compute |]].
  - apply (confirm_item_transitions 1 alice bob db_pending (session_in db_pending) 1 2
             (Item.set_status NEGOTIATING lost_headphones)
             (Item.set_status NEGOTIATING found_headphones));
      by vm_compute.
  - apply (confirm_item_transitions 1 bob alice db_seeker_confirmed
             (session_in db_seeker_confirmed) 1 2
             (Item.set_status NEGOTIATING lost_headphones)
             (Item.set_status NEGOTIATING found_headphones));
      by vm_compute.
Defined.

Lemma schedule_round_trip_witness :
  ∃ db1 db2 db3 db4 rejected approved,
    create_schedule 1 first_proposal bob db_confirmed = Ok db1
    ∧ reject_schedule 1 blank_padded_reason alice db1 = Ok db2
    ∧ create_schedule 1 latest_proposal bob db2 = Ok db3
    ∧ approve_schedule 1 alice db3 = Ok db4
    ∧ session_status db2 1 = Some NegotiationStatus.CONFIRMED
    ∧ schedules_of 1 db2 = [rejected]
    ∧ ReturnSchedule.status rejected = "REJECTED"%string
    ∧ ReturnSchedule.reject_reason rejected
      = Some (strip (RejectRequest.reason blank_padded_reason))
    ∧ session_status db4 1 = Some NegotiationStatus.WAITING_RETURN
    ∧ schedules_of 1 db4 = [approved]
    ∧ ReturnSchedule.proposed_time approved
      = Some (ScheduleCreate.proposed_time latest_proposal)
    ∧ ReturnSchedule.proposed_location approved
      = Some (ScheduleCreate.proposed_location latest_proposal)
    ∧ ReturnSchedule.status approved = "APPROVED"%string
    ∧ ReturnSchedule.reject_reason approved = None.
Proof.
  apply (schedule_round_trip 1 bob alice first_proposal latest_proposal blank_padded_reason
           db_confirmed (session_in db_confirmed));
    [by vm_compute | by vm_compute | by vm_compute | by vm_compute | by vm_compute
    | by left].
Defined.

Lemma force_match_keeps_exclusions_witness :
  ∃ db',
    force_match 1 alice db_failed = Ok db'
    ∧ negotiation_sessions db'
      = <[1 :=
            NegotiationSession.mk
              (NegotiationSession.lost_item_id (session_in db_failed))
              (NegotiationSession.found_item_id (session_in db_failed))
              NegotiationStatus.PENDING_CONFIRM
              (NegotiationSession.match_score (session_in db_failed))
              (NegotiationSession.chat_log (session_in db_failed) ++ [audit_entry])
              (NegotiationSession.completed_at (session_in db_failed))
              (Some true)
              (NegotiationSession.finder_confirmed (session_in db_failed))]>
          (negotiation_sessions db_failed)
    ∧ items db' = items db_failed
    ∧ item_images db' = item_images db_failed
    ∧ failed_matches db' = failed_matches db_failed
    ∧ notifications db' = notifications db_failed
    ∧ return_schedules db' = return_schedules db_failed
    ∧ (∀ lost_id lost limit,
         find_matches exact_similarity db' lost_id lost limit
         = find_matches exact_similarity db_failed lost_id lost limit)
    ∧ (∀ f lost_id found_id lost limit m,
         f ∈ failed_matches db_failed →
         FailedMatch.lost_item_id f = Some lost_id →
         FailedMatch.found_item_id f = Some found_id →
         m ∈ find_matches exact_similarity db' lost_id lost limit →
         Match.item_id m ≠ found_id).
Proof.
  apply (force_match_keeps_exclusions exact_similarity 1 alice db_failed
           (session_in db_failed));
    [reflexivity | reflexivity | by left].
Defined.

Example forced_pair_stays_excluded :
  session_status (committed db_failed (force_match 1 alice db_failed)) 1
  = Some NegotiationStatus.PENDING_CONFIRM
  ∧ find_matches exact_similarity (committed db_failed (force_match 1 alice db_failed))
                 1 lost_headphones 10 = [].
Proof. by vm_compute. Qed.
